(** * puzzlehunt_server: the models and the registration view

    A shallow embedding of [huntserver/models.py] and of
    [huntserver/info_views.py], and the properties of the hunt singleton,
    of grading, of the solve table and of team registration that are
    proved about it.

    Conventions of the embedding.
    - A database table is a finite map from primary keys to rows.
    - Code that reads or writes the database, or raises, lives in the
      monad [M S A := S -> (exn + A) * S]: state passing, with the state
      reached so far kept when an exception is raised, so that
      [atomic] has something to roll back.
    - Text is a [string] of bytes; [lower] is Python's [lower()] on ASCII
      text (bytes outside [A-Z] are left as they are).
    - An instant of time is an integer (a count of clock ticks). *)

From stdpp Require Import gmap strings list fin_maps sorting.
From Stdlib Require Import ZArith Ascii String.

Open Scope string_scope.

(** ** Text *)

Definition is_upper (c : ascii) : bool :=
  let n := N_of_ascii c in ((65 <=? n) && (n <=? 90))%N.

Definition lower_char (c : ascii) : ascii :=
  if is_upper c then ascii_of_N (N_of_ascii c + 32) else c.

(** [s.lower()] *)
Fixpoint lower (s : string) : string :=
  match s with
  | EmptyString => EmptyString
  | String c s' => String (lower_char c) (lower s')
  end.

(** [a == b] on text, as a boolean. *)
Definition str_eqb (a b : string) : bool := bool_decide (a = b).

(** ** Exceptions and the database monad *)

Inductive exn : Set :=
| ValidationError
| ObjectDoesNotExist
| MultipleObjectsReturned
| IntegrityError
| AttributeError
| Http404.

#[global] Instance exn_eq_dec : EqDecision exn.
Proof. solve_decision. Defined.

Definition M (S A : Type) : Type := S -> (exn + A) * S.

Definition ret {S A} (a : A) : M S A := fun s => (inr a, s).

Definition raise {S A} (e : exn) : M S A := fun s => (inl e, s).

Definition bind {S A B} (m : M S A) (k : A -> M S B) : M S B :=
  fun s =>
    match m s with
    | (inr a, s') => k a s'
    | (inl e, s') => (inl e, s')
    end.

Definition gets {S A} (f : S -> A) : M S A := fun s => (inr (f s), s).

Definition modify {S} (f : S -> S) : M S unit := fun s => (inr tt, f s).

(** [try: m except e: handler]; other exceptions pass through. *)
Definition try_except {S A} (m : M S A) (e : exn) (handler : M S A) : M S A :=
  fun s =>
    match m s with
    | (inl e', s') => if bool_decide (e' = e) then handler s' else (inl e', s')
    | r => r
    end.

(** [@transaction.atomic]: when the body raises, every write it made is
    rolled back and the exception goes on. *)
Definition atomic {S A} (m : M S A) : M S A :=
  fun s =>
    match m s with
    | (inl e, _) => (inl e, s)
    | r => r
    end.

(** Running a part of the program on one component of a larger state. *)
Definition zoom {S T A} (proj : S -> T) (upd : T -> S -> S) (m : M T A) : M S A :=
  fun s => let '(r, t') := m (proj s) in (r, upd t' s).

Declare Scope db_scope.
Delimit Scope db_scope with db.
Notation "x <- m ;; k" := (bind m (fun x => k))
  (at level 100, m at next level, right associativity) : db_scope.
Notation "m ;;; k" := (bind m (fun _ => k))
  (at level 100, right associativity) : db_scope.
Open Scope db_scope.

(** ** Tables *)

(** What the embedding needs of [models.Model]: the primary key of an
    instance ([None] until it has been saved) and its assignment. *)
Class Model (A : Type) := {
  pk : A -> option nat;
  set_pk : option nat -> A -> A;
  pk_set_pk : forall k x, pk (set_pk k x) = k
}.

Section Table.
Context {A : Type} `{Model A}.

(** The rows of a table as model instances, in the table's order; an
    instance read from the table carries the key it is stored under. *)
Definition rows (tb : gmap nat A) : list A :=
  (fun kr : nat * A => set_pk (Some kr.1) kr.2) <$> map_to_list tb.

(** The key an auto-increment column gives to the next inserted row. *)
Definition next_pk (tb : gmap nat A) : nat :=
  S (foldr Nat.max 0 (map_to_list tb).*1).

(** [objects.filter(...)] *)
Definition objects_filter (P : A -> bool) (tb : gmap nat A) : list A :=
  List.filter P (rows tb).

(** [objects.get(...)]: exactly one row must match. *)
Definition objects_get (P : A -> bool) : M (gmap nat A) A :=
  fun tb =>
    match objects_filter P tb with
    | [] => (inl ObjectDoesNotExist, tb)
    | [x] => (inr x, tb)
    | _ => (inl MultipleObjectsReturned, tb)
    end.

(** [objects.get(pk=...)]; a [None] key matches no row. *)
Definition objects_get_pk (key : option nat) : M (gmap nat A) A :=
  fun tb =>
    match key with
    | Some k =>
        match tb !! k with
        | Some x => (inr (set_pk (Some k) x), tb)
        | None => (inl ObjectDoesNotExist, tb)
        end
    | None => (inl ObjectDoesNotExist, tb)
    end.

(** [models.Model.save]: an instance without a key is inserted under a
    new one, an instance with a key replaces the row of that key (or is
    inserted under it); the instance then carries its key. *)
Definition model_save (self : A) : M (gmap nat A) A :=
  fun tb =>
    let k := match pk self with Some k => k | None => next_pk tb end in
    let self' := set_pk (Some k) self in
    (inr self', <[k := self']> tb).
End Table.

(** ** models.py: Hunt *)

Module Hunt.

Record t := mk {
  id : option nat;
  hunt_name : string;
  hunt_number : Z;             (* unique=True *)
  team_size : Z;
  start_date : Z;
  end_date : Z;
  location : string;
  is_current_hunt : bool       (* default=False *)
}.

Definition set_id (k : option nat) (h : t) : t :=
  mk k (hunt_name h) (hunt_number h) (team_size h) (start_date h)
     (end_date h) (location h) (is_current_hunt h).

Definition set_is_current_hunt (b : bool) (h : t) : t :=
  mk (id h) (hunt_name h) (hunt_number h) (team_size h) (start_date h)
     (end_date h) (location h) b.

#[global] Instance model : Model t :=
  {| pk := id; set_pk := set_id; pk_set_pk := fun _ _ => eq_refl |}.

(** The [unique=True] of [hunt_number]: no row stored under another key
    has the number of [self]. *)
Definition hunt_number_unique (self : t) (tb : gmap nat t) : bool :=
  forallb
    (fun kr : nat * t =>
       bool_decide (Some kr.1 = id self)
       || negb (hunt_number kr.2 =? hunt_number self)%Z)
    (map_to_list tb).

(** [Hunt.objects.filter(is_current_hunt=True).update(is_current_hunt=False)] *)
Definition clear_current (h : t) : t :=
  if is_current_hunt h then set_is_current_hunt false h else h.

Definition update_current_false : M (gmap nat t) unit :=
  modify (fmap clear_current).

(** [Hunt.objects.get(is_current_hunt=True)] *)
Definition get_current : M (gmap nat t) t := objects_get is_current_hunt.

Section Validation.
(** The field validation of the framework ([clean_fields]: lengths,
    blanks, types), which depends on the instance alone. *)
Variable clean_fields : t -> bool.

(** [Hunt.clean]; [super().clean()] does nothing. *)
Definition clean (self : t) : M (gmap nat t) unit :=
  (if negb (is_current_hunt self) then
     try_except
       (old_instance <- objects_get_pk (id self) ;;
        if is_current_hunt old_instance
        then raise ValidationError
        else ret tt)
       ObjectDoesNotExist
       (ret tt)
   else ret tt) ;;;
  ret tt.

(** A validation step of [full_clean]: a [ValidationError] is noted
    and the next step still runs; anything else goes on. *)
Definition collect (m : M (gmap nat t) unit) : M (gmap nat t) bool :=
  try_except (m ;;; ret true) ValidationError (ret false).

(** [full_clean]: field validation, [clean], uniqueness; a
    [ValidationError] at the end when any of the three failed. *)
Definition full_clean (self : t) : M (gmap nat t) unit :=
  fields_ok <- collect (if clean_fields self then ret tt
                        else raise ValidationError) ;;
  clean_ok <- collect (clean self) ;;
  unique_ok <- collect (ok <- gets (hunt_number_unique self) ;;
                        if ok then ret tt else raise ValidationError) ;;
  if fields_ok && clean_ok && unique_ok then ret tt
  else raise ValidationError.

(** [models.Model.save] on the hunt table, whose unique column makes
    the write fail with [IntegrityError]. *)
Definition super_save (self : t) : M (gmap nat t) t :=
  ok <- gets (hunt_number_unique self) ;;
  if ok then model_save self else raise IntegrityError.

(** [Hunt.save] *)
Definition save (self : t) : M (gmap nat t) t :=
  atomic
    (full_clean self ;;;
     (if is_current_hunt self then update_current_false else ret tt) ;;;
     super_save self).

(** A sequence of saves, one after the other; a save that raises
    leaves the table as it was. *)
Definition save_all (saves : list t) (tb : gmap nat t) : gmap nat t :=
  foldl (fun tb self => (save self tb).2) tb saves.
End Validation.

(** [is_locked], [is_open], [is_public]: [now], [now1], [now2] are the
    values of the calls of [timezone.now()], in the order of the
    source. *)
Definition is_locked (now : Z) (self : t) : bool :=
  (now <? start_date self)%Z.

Definition is_open (now1 now2 : Z) (self : t) : bool :=
  (now1 >? start_date self)%Z && (now2 <? end_date self)%Z.

Definition is_public (now : Z) (self : t) : bool :=
  (now >? end_date self)%Z.

End Hunt.

(** ** models.py: Puzzle, Team, Submission, Solve *)

Module Puzzle.

Record t := mk {
  id : option nat;
  puzzle_number : Z;
  puzzle_name : string;
  puzzle_id : string;
  answer : string;
  link : string;
  num_required_to_unlock : Z;
  hunt : nat;                  (* ForeignKey(Hunt) *)
  num_pages : Z
}.

Definition set_id (k : option nat) (p : t) : t :=
  mk k (puzzle_number p) (puzzle_name p) (puzzle_id p) (answer p) (link p)
     (num_required_to_unlock p) (hunt p) (num_pages p).

#[global] Instance model : Model t :=
  {| pk := id; set_pk := set_id; pk_set_pk := fun _ _ => eq_refl |}.

End Puzzle.

Module Team.

Record t := mk {
  id : option nat;
  team_name : string;
  hunt : nat;                  (* ForeignKey(Hunt) *)
  location : string;
  join_code : string;
  playtester : bool            (* default=False *)
}.

Definition set_id (k : option nat) (x : t) : t :=
  mk k (team_name x) (hunt x) (location x) (join_code x) (playtester x).

#[global] Instance model : Model t :=
  {| pk := id; set_pk := set_id; pk_set_pk := fun _ _ => eq_refl |}.

Definition is_playtester_team (self : t) : bool := playtester self.

Definition is_normal_team (self : t) : bool := negb (playtester self).

End Team.

Module Submission.

Record t := mk {
  id : option nat;
  team : nat;                  (* ForeignKey(Team) *)
  submission_time : Z;
  submission_text : string;
  response_text : string;
  puzzle : nat;                (* ForeignKey(Puzzle) *)
  modified_date : Z
}.

Definition set_id (k : option nat) (s : t) : t :=
  mk k (team s) (submission_time s) (submission_text s) (response_text s)
     (puzzle s) (modified_date s).

Definition set_modified_date (d : Z) (s : t) : t :=
  mk (id s) (team s) (submission_time s) (submission_text s)
     (response_text s) (puzzle s) d.

#[global] Instance model : Model t :=
  {| pk := id; set_pk := set_id; pk_set_pk := fun _ _ => eq_refl |}.


(** [Submission.save]; [now] is the value of [timezone.now()]. *)
Definition save (now : Z) (self : t) : M (gmap nat t) t :=
  let self := set_modified_date now self in
  model_save self.

End Submission.

Module Solve.

Record t := mk {
  id : option nat;
  puzzle : nat;                (* ForeignKey(Puzzle) *)
  team : nat;                  (* ForeignKey(Team) *)
  submission : nat             (* ForeignKey(Submission) *)
}.

Definition set_id (k : option nat) (s : t) : t :=
  mk k (puzzle s) (team s) (submission s).

#[global] Instance model : Model t :=
  {| pk := id; set_pk := set_id; pk_set_pk := fun _ _ => eq_refl |}.

(** [unique_together = ('puzzle', 'team',)]: no row stored under another
    key has the puzzle and the team of [self]. *)
Definition unique_together (self : t) (tb : gmap nat t) : bool :=
  forallb
    (fun kr : nat * t =>
       bool_decide (Some kr.1 = id self)
       || negb (bool_decide (puzzle kr.2 = puzzle self)
                && bool_decide (team kr.2 = team self)))
    (map_to_list tb).

(** [models.Model.save] on the solve table, whose unique pair makes the
    write fail with [IntegrityError]. *)
Definition save (self : t) : M (gmap nat t) t :=
  ok <- gets (unique_together self) ;;
  if ok then model_save self else raise IntegrityError.

(** [Solve.objects.create(puzzle=..., team=..., submission=...)] *)
Definition objects_create (p tm sub : nat) : M (gmap nat t) t :=
  save (mk None p tm sub).

(** No two rows of the table have the same puzzle and team. *)
Definition pairs_distinct (tb : gmap nat t) : Prop :=
  forall k1 k2 r1 r2,
    tb !! k1 = Some r1 -> tb !! k2 = Some r2 ->
    puzzle r1 = puzzle r2 -> team r1 = team r2 ->
    k1 = k2.

(** The solves of a team for a puzzle. *)
Definition solves_of (p tm : nat) (tb : gmap nat t) : list t :=
  objects_filter
    (fun s => bool_decide (puzzle s = p) && bool_decide (team s = tm)) tb.

End Solve.

(** ** models.py: Person *)

Module Person.

(** The fields of [django.contrib.auth.models.User] that the model
    reads. *)
Record AuthUser := mkAuthUser {
  first_name : string;
  last_name : string;
  email : string
}.

Record t := mk {
  id : option nat;
  user : AuthUser;             (* OneToOneField(User) *)
  phone : string;
  allergies : string;
  comments : string;
  is_shib_acct : bool
}.

(** [Person.__unicode__] *)
Definition __unicode__ (self : t) : string :=
  let name := first_name (user self) ++ " " ++ last_name (user self)
              ++ " (" ++ email (user self) ++ ")" in
  if str_eqb name " " then "Anonymous User"
  else first_name (user self) ++ " " ++ last_name (user self)
       ++ " (" ++ email (user self) ++ ")".

End Person.

(** ** The grading pipeline's recording of a solve *)

Module Grader.

Inductive outcome : Set := Solved | AlreadySolved.

(** Modelled from the spec: the creation of a solve by the grading
    pipeline, whose code is not among the sources (only the [Solve]
    model is). "Atomically create one referencing this Submission";
    "Solve-creation races [are] resolved by catching the
    uniqueness-constraint failure and treating it as already solved
    (idempotent success) rather than propagating an error". *)
Definition create_solve (p tm sub : nat) : M (gmap nat Solve.t) outcome :=
  try_except
    (atomic (Solve.objects_create p tm sub ;;; ret Solved))
    IntegrityError
    (ret AlreadySolved).

(** Modelled from the spec: the step of the grading pipeline after a
    correct answer, whose code is not among the sources. "If no prior
    Solve exists for (team, puzzle), atomically create one"; "a team may
    resubmit after a correct answer; the Grader must not create a second
    Solve". *)
Definition record_solve (p tm sub : nat) : M (gmap nat Solve.t) outcome :=
  prior <- gets (Solve.solves_of p tm) ;;
  match prior with
  | _ :: _ => ret AlreadySolved
  | [] => create_solve p tm sub
  end.

(** What may write to the solve table: the pipeline's step, with or
    without its look for a prior solve (two requests that race both
    pass the look), and a plain save of a [Solve]. *)
Inductive op : Set :=
| Record (p tm sub : nat)
| Create (p tm sub : nat)
| Save (self : Solve.t).

Definition step (tb : gmap nat Solve.t) (o : op) : gmap nat Solve.t :=
  match o with
  | Record p tm sub => (record_solve p tm sub tb).2
  | Create p tm sub => (create_solve p tm sub tb).2
  | Save self => (Solve.save self tb).2
  end.

Definition run (ops : list op) (tb : gmap nat Solve.t) : gmap nat Solve.t :=
  foldl step tb ops.

End Grader.

(** ** info_views.py *)

Module InfoViews.

(** [request.user]: [person] is [None] for a user without a [Person]
    (reading [request.user.person] then raises). *)
Record User := mkUser { uid : nat; person : option nat }.

Record Request := mkRequest {
  user : User;
  method : string;
  POST : gmap string string
}.

(** The database the view works on; [person_teams] is the join table of
    [Person.teams], a set of pairs (person, team). *)
Record DB := mkDB {
  hunts : gmap nat Hunt.t;
  teams : gmap nat Team.t;
  person_teams : gset (nat * nat)
}.

Definition set_teams (tb : gmap nat Team.t) (db : DB) : DB :=
  mkDB (hunts db) tb (person_teams db).

Definition set_person_teams (s : gset (nat * nat)) (db : DB) : DB :=
  mkDB (hunts db) (teams db) s.

Definition on_hunts {A} (m : M (gmap nat Hunt.t) A) : M DB A :=
  zoom hunts (fun _ db => db) m.

Definition on_teams {A} (m : M (gmap nat Team.t) A) : M DB A :=
  zoom teams set_teams m.

Inductive Response :=
| HttpResponse (content : string)
| RenderRegisteredTeam (registered_team : Team.t)
| RenderTeams (teams : list Team.t).

(** How a branch of the view ends: with [return response], or by
    falling through to the rendering with its value of [team]. *)
Inductive flow :=
| Return (r : Response)
| Next (team : option Team.t).

Definition alphabet : string := "ABCDEFGHJKLMNPQRSTUVWXYZ23456789".

(** [random.choice(seq)] on a non-empty text; [r] is the draw of the
    generator, reduced to an index of [seq]. *)
Definition choice (seq : string) (r : nat) : ascii :=
  match String.get (r mod String.length seq) seq with
  | Some c => c
  | None => "000"%char
  end.

(** [''.join(random.choice(...) for _ in range(5))]; [rnd i] is the
    [i]-th draw. *)
Definition random_join_code (rnd : nat -> nat) : string :=
  string_of_list_ascii ((fun i => choice alphabet (rnd i)) <$> seq 0 5).

(** [curr_hunt.team_set]: the teams whose hunt is [curr_hunt]. *)
Definition in_team_set (curr_hunt : Hunt.t) (tm : Team.t) : bool :=
  bool_decide (Some (Team.hunt tm) = pk curr_hunt).

(** [team_name__iexact=name]; the name of a team is never null, so a
    missing [name] matches no team. *)
Definition iexact (name : option string) (tm : Team.t) : bool :=
  match name with
  | Some n => str_eqb (lower (Team.team_name tm)) (lower n)
  | None => false
  end.

(** [team_name=name] *)
Definition exact (name : option string) (tm : Team.t) : bool :=
  match name with
  | Some n => str_eqb (Team.team_name tm) n
  | None => false
  end.

(** [Team.objects.create(team_name=..., hunt=..., location=...,
    join_code=...)]; the columns are not nullable. *)
Definition Team_objects_create (team_name : option string) (hunt : Hunt.t)
    (location : option string) (join_code : string)
  : M (gmap nat Team.t) Team.t :=
  match team_name, pk hunt, location with
  | Some n, Some h, Some l => model_save (Team.mk None n h l join_code false)
  | _, _, _ => raise IntegrityError
  end.

(** [team.person_set.all()], as the set of its rows of the join table. *)
Definition person_set (tm : Team.t) (db : DB) : gset (nat * nat) :=
  filter (fun pt : nat * nat => Some pt.2 = pk tm) (person_teams db).

(** [request.user.person.teams.add(team)] *)
Definition teams_add (u : User) (tm : Team.t) : M DB unit :=
  match person u, pk tm with
  | Some p, Some k =>
      modify (fun db => set_person_teams ({[ (p, k) ]} ∪ person_teams db) db)
  | None, _ => raise AttributeError
  | _, None => raise IntegrityError
  end.

(** [request.user.person.teams.remove(team)]; removing [None] removes
    nothing. *)
Definition teams_remove (u : User) (tm : option Team.t) : M DB unit :=
  match person u with
  | None => raise AttributeError
  | Some p =>
      match tm ≫= pk with
      | Some k =>
          modify (fun db => set_person_teams (person_teams db ∖ {[ (p, k) ]}) db)
      | None => ret tt
      end
  end.

(** What the test of [new_team] keeps true of the team table: within a
    hunt, no two teams have the same name up to letter case. *)
Definition names_distinct (db : DB) : Prop :=
  forall k1 k2 t1 t2,
    teams db !! k1 = Some t1 -> teams db !! k2 = Some t2 ->
    Team.hunt t1 = Team.hunt t2 ->
    lower (Team.team_name t1) = lower (Team.team_name t2) ->
    k1 = k2.

Section Views.
(** [utils.team_from_user_hunt], which is not among the sources: a
    query, so it gets the database and gives a team, [None], or an
    exception. *)
Variable team_from_user_hunt : DB -> User -> Hunt.t -> exn + option Team.t.

(** The draws of the random generator during the call. *)
Variable rnd : nat -> nat.

Definition new_team (request : Request) (curr_hunt : Hunt.t)
    (team : option Team.t) : M DB flow :=
  let team_name := POST request !! "team_name" in
  found <- gets (fun db =>
    objects_filter (fun tm => in_team_set curr_hunt tm && iexact team_name tm)
                   (teams db)) ;;
  if negb (bool_decide (found = [])) then
    ret (Return (HttpResponse "fail-exists"))
  else if negb (bool_decide (team_name = Some "")) then
    let join_code := random_join_code rnd in
    team <- on_teams (Team_objects_create team_name curr_hunt
                        (POST request !! "need_room") join_code) ;;
    teams_add (user request) team ;;;
    ret (Next (Some team))
  else ret (Next team).

Definition join_team (request : Request) (curr_hunt : Hunt.t) : M DB flow :=
  team <- on_teams (objects_get (fun tm =>
            in_team_set curr_hunt tm
            && exact (POST request !! "team_name") tm)) ;;
  members <- gets (person_set team) ;;
  team_hunt <- on_hunts (objects_get_pk (Some (Team.hunt team))) ;;
  if (Z.of_nat (size members) >=? Hunt.team_size team_hunt)%Z then
    ret (Return (HttpResponse "fail-full"))
  else
    code <- match POST request !! "join_code" with
            | Some c => ret c
            | None => raise AttributeError
            end ;;
    if negb (str_eqb (lower (Team.join_code team)) (lower code)) then
      ret (Return (HttpResponse "fail-password"))
    else
      teams_add (user request) team ;;;
      ret (Next (Some team)).

Definition leave_team (request : Request) (team : option Team.t) : M DB flow :=
  teams_remove (user request) team ;;;
  ret (Next team).

(** The end of the view: the [return] of a branch, or the page, which
    shows the team of the user or else the teams of the hunt. *)
Definition render_page (curr_hunt : Hunt.t) (branch : flow) : M DB Response :=
  match branch with
  | Return response => ret response
  | Next (Some team) => ret (RenderRegisteredTeam team)
  | Next None =>
      teams <- gets (fun db => objects_filter (in_team_set curr_hunt) (teams db)) ;;
      ret (RenderTeams teams)
  end.

(** [registration(request)] *)
Definition registration (request : Request) : M DB Response :=
  curr_hunt <- on_hunts Hunt.get_current ;;
  team <- (fun db => (team_from_user_hunt db (user request) curr_hunt, db)) ;;
  branch <-
    (if str_eqb (method request) "POST"
        && bool_decide (is_Some (POST request !! "form_type"))
     then
       let form_type := POST request !! "form_type" in
       if bool_decide (form_type = Some "new_team") then
         new_team request curr_hunt team
       else if bool_decide (form_type = Some "join_team") then
         join_team request curr_hunt
       else if bool_decide (form_type = Some "leave_team") then
         leave_team request team
       else ret (Next team)
     else ret (Next team)) ;;
  render_page curr_hunt branch.
End Views.

(** *** The pages about hunts *)

Inductive Page :=
| RenderIndex (curr_hunt : Hunt.t)
| RenderHuntInfo (curr_hunt : Hunt.t)
| RenderPreviousHunts (hunts : list Hunt.t).

(** [index(request)] *)
Definition index : M DB Page :=
  curr_hunt <- on_hunts Hunt.get_current ;;
  ret (RenderIndex curr_hunt).

(** [current_hunt_info(request)] *)
Definition current_hunt_info : M DB Page :=
  curr_hunt <- on_hunts Hunt.get_current ;;
  ret (RenderHuntInfo curr_hunt).

(** [order_by('hunt_number')] *)
Definition by_hunt_number (h1 h2 : Hunt.t) : Prop :=
  (Hunt.hunt_number h1 <= Hunt.hunt_number h2)%Z.

#[global] Instance by_hunt_number_dec h1 h2 : Decision (by_hunt_number h1 h2).
Proof. unfold by_hunt_number. apply _. Defined.

Definition order_by_hunt_number (l : list Hunt.t) : list Hunt.t :=
  merge_sort by_hunt_number l.

(** [previous_hunts(request)]; [now] is the value of [timezone.now()]
    in [is_public]. *)
Definition previous_hunts (now : Z) : M DB Page :=
  curr_hunt <- on_hunts Hunt.get_current ;;
  old_hunts <-
    (if Hunt.is_public now curr_hunt then
       gets (fun db => order_by_hunt_number (rows (hunts db)))
     else
       gets (fun db =>
         order_by_hunt_number
           (List.filter (fun h => negb (Hunt.is_current_hunt h)) (rows (hunts db))))) ;;
  ret (RenderPreviousHunts old_hunts).

End InfoViews.

(** ** Case-insensitive equality of text, said directly *)

(** Two bytes are the same up to letter case: they are equal, or one is
    an upper-case letter [A]..[Z] (65..90) and the other the lower-case
    letter 32 places further. *)
Definition same_letter (c d : ascii) : bool :=
  let m := N_of_ascii c in
  let n := N_of_ascii d in
  ((m =? n) || ((65 <=? m) && (m <=? 90) && (n =? m + 32))
   || ((65 <=? n) && (n <=? 90) && (m =? n + 32)))%N.

(** Two texts are equal up to letter case: they have the same length
    and, place by place, the same letter. *)
Fixpoint caseless_eq (s t : string) : bool :=
  match s, t with
  | EmptyString, EmptyString => true
  | String c s', String d t' => same_letter c d && caseless_eq s' t'
  | _, _ => false
  end.

(** ** What the tables are expected to keep *)

(** No two hunts of the table have the same [hunt_number]. *)
Definition hunt_numbers_distinct (tb : gmap nat Hunt.t) : Prop :=
  forall k1 k2 r1 r2,
    tb !! k1 = Some r1 -> tb !! k2 = Some r2 ->
    Hunt.hunt_number r1 = Hunt.hunt_number r2 ->
    k1 = k2.

(** Every row of the join table of [Person.teams] names a team of the
    team table. *)
Definition memberships_valid (db : InfoViews.DB) : Prop :=
  forall q j, (q, j) ∈ InfoViews.person_teams db ->
              is_Some (InfoViews.teams db !! j).

(** No team of the hunt has more members than the [team_size] of the
    hunt. *)
Definition within_capacity (curr_hunt : Hunt.t) (db : InfoViews.DB) : Prop :=
  forall j r,
    InfoViews.teams db !! j = Some r ->
    Some (Team.hunt r) = pk curr_hunt ->
    (Z.of_nat (size (InfoViews.person_set (set_pk (Some j) r) db))
     <= Hunt.team_size curr_hunt)%Z.

(** ** Sample data *)

Module Sample.

(** A field validation: the name of a hunt is not blank and has at most
    200 bytes, its location at most 100. *)
Definition clean_fields (h : Hunt.t) : bool :=
  negb (str_eqb (Hunt.hunt_name h) "")
  && Nat.leb (String.length (Hunt.hunt_name h)) 200
  && negb (str_eqb (Hunt.location h) "")
  && Nat.leb (String.length (Hunt.location h)) 100.

Definition hunt2014 : Hunt.t :=
  Hunt.mk None "Hunt 2014" 1 4 100 200 "Doherty Hall" true.

Definition hunt2015 : Hunt.t :=
  Hunt.mk None "Hunt 2015" 2 2 300 400 "Wean Hall" true.

(** The hunt table after both hunts have been saved. *)
Definition two_hunts : gmap nat Hunt.t :=
  Hunt.save_all clean_fields [hunt2014; hunt2015] ∅.



(** Team 5 solves puzzle 7 with submission 11, then submits the
    answer again (submission 12). *)
Definition solved_once : gmap nat Solve.t :=
  Grader.run [Grader.Record 7 5 11] ∅.

(** A [team_from_user_hunt]: the first team of the hunt that the
    person of the user is a member of, if any. *)
Definition team_from_user_hunt (db : InfoViews.DB) (u : InfoViews.User)
    (h : Hunt.t) : exn + option Team.t :=
  match InfoViews.person u with
  | None => inr None
  | Some p =>
      inr (head (objects_filter
                   (fun tm => InfoViews.in_team_set h tm
                              && match pk tm with
                                 | Some k =>
                                     bool_decide ((p, k) ∈ InfoViews.person_teams db)
                                 | None => false
                                 end)
                   (InfoViews.teams db)))
  end.

Definition rnd (i : nat) : nat := 7 * i + 31.

(** The database after both hunts have been saved: no team yet. *)
Definition db0 : InfoViews.DB := InfoViews.mkDB two_hunts ∅ ∅.

Definition post (u : InfoViews.User) (fields : list (string * string))
  : InfoViews.Request :=
  InfoViews.mkRequest u "POST" (list_to_map fields).

Definition alice : InfoViews.User := InfoViews.mkUser 1 (Some 1).
Definition bob : InfoViews.User := InfoViews.mkUser 2 (Some 2).
Definition carol : InfoViews.User := InfoViews.mkUser 3 (Some 3).

Definition new_foo : InfoViews.Request :=
  post alice [("form_type", "new_team"); ("team_name", "Foo");
              ("need_room", "yes")].

(** After alice has created the team "Foo" (join code "9GPW5"). *)
Definition db1 : InfoViews.DB :=
  (InfoViews.registration team_from_user_hunt rnd new_foo db0).2.

Definition foo : Team.t := Team.mk (Some 1) "Foo" 2 "yes" "9GPW5" false.

Definition join_foo (u : InfoViews.User) (name code : string)
  : InfoViews.Request :=
  post u [("form_type", "join_team"); ("team_name", name);
          ("join_code", code)].

(** After bob has joined "Foo": the team is full (the hunt has
    [team_size = 2]). *)
Definition db2 : InfoViews.DB :=
  (InfoViews.registration team_from_user_hunt rnd (join_foo bob "Foo" "9gpw5") db1).2.

(** The current hunt of the sample databases. *)
Definition current : Hunt.t := set_pk (Some 2) hunt2015.


(** A third hunt, not current. *)
Definition hunt2016 : Hunt.t :=
  Hunt.mk None "Hunt 2016" 3 4 500 600 "Gates Center" false.

(** A hunt with the number of [hunt2014]. *)
Definition hunt2014_again : Hunt.t :=
  Hunt.mk None "Hunt 2014 bis" 1 4 700 800 "Gates Center" false.

(** A hunt whose end comes before its start. *)
Definition backwards : Hunt.t :=
  Hunt.mk None "Backwards" 9 4 200 100 "Nowhere" false.

(** A user without a person. *)
Definition ghost : InfoViews.User := InfoViews.mkUser 4 None.

Definition new_bar (u : InfoViews.User) : InfoViews.Request :=
  post u [("form_type", "new_team"); ("team_name", "Bar");
          ("need_room", "no")].

Definition nobody : Person.t :=
  Person.mk (Some 1) (Person.mkAuthUser "" "" "") "" "" "" false.

End Sample.

(** * Properties *)

(** ** The monad and the tables *)

Lemma singleton_of_NoDup {A} (l : list A) (a : A) :
  NoDup l -> (forall x, x ∈ l <-> x = a) -> l = [a].
Proof.
  intros Hnd Hin. destruct l as [|x l].
  - exfalso. eapply not_elem_of_nil. apply Hin. reflexivity.
  - assert (x = a) as -> by (apply Hin; left).
    destruct l as [|y l]; [reflexivity|].
    assert (y = a) as -> by (apply Hin; right; left).
    apply NoDup_cons in Hnd as [Hnotin _]. exfalso. apply Hnotin. left.
Qed.

Section TableFacts.
Context {A : Type} `{Model A}.
Implicit Types (tb : gmap nat A) (P : A -> bool).

Lemma elem_of_rows tb x :
  x ∈ rows tb <-> exists k r, tb !! k = Some r /\ x = set_pk (Some k) r.
Proof.
  unfold rows. rewrite list_elem_of_fmap. split.
  - intros [[k r] [-> Hkr]]. apply elem_of_map_to_list in Hkr. eauto.
  - intros (k & r & Hkr & ->). exists (k, r). split; [done|].
    by apply elem_of_map_to_list.
Qed.

Lemma NoDup_rows tb : NoDup (rows tb).
Proof.
  unfold rows. apply NoDup_fmap_2_strong; [|apply NoDup_map_to_list].
  intros [k1 r1] [k2 r2] H1 H2 Heq. simpl in Heq.
  apply elem_of_map_to_list in H1, H2.
  assert (Some k1 = Some k2) as [= ->].
  { rewrite <- (pk_set_pk (Some k1) r1), <- (pk_set_pk (Some k2) r2).
    by rewrite Heq. }
  congruence.
Qed.

Lemma elem_of_objects_filter P tb x :
  x ∈ objects_filter P tb <->
  P x = true /\ exists k r, tb !! k = Some r /\ x = set_pk (Some k) r.
Proof.
  unfold objects_filter. rewrite list_elem_of_In, filter_In, <- list_elem_of_In.
  rewrite elem_of_rows. tauto.
Qed.

Lemma NoDup_objects_filter P tb : NoDup (objects_filter P tb).
Proof.
  unfold objects_filter. apply NoDup_ListNoDup, List.NoDup_filter.
  apply NoDup_ListNoDup, NoDup_rows.
Qed.

Lemma next_pk_fresh tb : tb !! next_pk tb = None.
Proof.
  destruct (tb !! next_pk tb) as [r|] eqn:E; [|done]. exfalso.
  apply elem_of_map_to_list in E.
  assert (forall (l : list (nat * A)) k x, (k, x) ∈ l -> k <= foldr Nat.max 0 l.*1) as Hmax.
  { induction l as [|[j y] l IH]; intros k x Hin.
    - by apply not_elem_of_nil in Hin.
    - rewrite fmap_cons. cbn [foldr fst].
      apply elem_of_cons in Hin as [[= -> ->]|Hin]; [lia|].
      specialize (IH _ _ Hin). lia. }
  specialize (Hmax _ _ _ E). unfold next_pk in Hmax. lia.
Qed.
End TableFacts.

Lemma atomic_raise {S A} (m : M S A) (s s' : S) (e : exn) :
  atomic m s = (inl e, s') -> s' = s.
Proof.
  unfold atomic. destruct (m s) as [[e'|a] s0]; intros [= ]; congruence.
Qed.

(** ** Hunt: validation and saving *)

Section HuntFacts.
Variable clean_fields : Hunt.t -> bool.
Implicit Types (self : Hunt.t) (tb : gmap nat Hunt.t).

Lemma clean_run self tb :
  Hunt.clean self tb =
  (if negb (Hunt.is_current_hunt self)
      && match Hunt.id self ≫= (tb !!.) with
         | Some old => Hunt.is_current_hunt old
         | None => false
         end
   then inl ValidationError else inr tt, tb).
Proof.
  unfold Hunt.clean, bind, try_except, objects_get_pk, ret, raise.
  destruct (Hunt.is_current_hunt self); simpl; [done|].
  destruct (Hunt.id self) as [k|]; simpl; [|done].
  destruct (tb !! k) as [old|]; simpl; [|done].
  by destruct (Hunt.is_current_hunt old).
Qed.

Lemma full_clean_run self tb :
  Hunt.full_clean clean_fields self tb = (inr tt, tb) \/
  Hunt.full_clean clean_fields self tb = (inl ValidationError, tb).
Proof.
  unfold Hunt.full_clean, Hunt.collect, bind, try_except, gets, ret, raise.
  destruct (clean_fields self); simpl; rewrite clean_run;
    destruct (negb _ && _); simpl;
    destruct (Hunt.hunt_number_unique self tb); simpl; auto.
Qed.

Lemma full_clean_ok self tb :
  Hunt.full_clean clean_fields self tb = (inr tt, tb) ->
  clean_fields self = true /\ Hunt.clean self tb = (inr tt, tb)
  /\ Hunt.hunt_number_unique self tb = true.
Proof.
  unfold Hunt.full_clean, Hunt.collect, bind, try_except, gets, ret, raise.
  destruct (clean_fields self); simpl; rewrite clean_run;
    destruct (negb _ && _); simpl;
    destruct (Hunt.hunt_number_unique self tb); simpl; intros [= ]; auto.
Qed.

(** The table that [Hunt.save] writes [self] to. *)
Lemma save_ok self tb saved tb' :
  Hunt.save clean_fields self tb = (inr saved, tb') ->
  Hunt.full_clean clean_fields self tb = (inr tt, tb) /\
  exists tb1 k,
    tb1 = (if Hunt.is_current_hunt self then Hunt.clear_current <$> tb else tb)
    /\ k = match Hunt.id self with Some k => k | None => next_pk tb1 end
    /\ saved = Hunt.set_id (Some k) self
    /\ tb' = <[k := saved]> tb1.
Proof.
  intros H. revert H. unfold Hunt.save, atomic, bind.
  destruct (full_clean_run self tb) as [-> | ->]; [|discriminate]. intros H.
  split; [done|].
  set (tb1 := if Hunt.is_current_hunt self then Hunt.clear_current <$> tb else tb).
  assert ((if Hunt.is_current_hunt self then Hunt.update_current_false
           else ret ()) tb = (inr tt, tb1)) as Hupd.
  { unfold tb1. by destruct (Hunt.is_current_hunt self). }
  cbv beta iota in H |- *. rewrite Hupd in H. cbv beta iota in H.
  revert H. unfold Hunt.super_save, bind, gets, model_save, raise.
  destruct (Hunt.hunt_number_unique self tb1); intros [= <- <-].
  by exists tb1, (match Hunt.id self with Some k => k | None => next_pk tb1 end).
Qed.

Lemma save_raise self tb e tb' :
  Hunt.save clean_fields self tb = (inl e, tb') -> tb' = tb.
Proof. apply atomic_raise. Qed.

Lemma is_current_set_pk k (r : Hunt.t) :
  Hunt.is_current_hunt (set_pk k r) = Hunt.is_current_hunt r.
Proof. done. Qed.

Lemma is_current_clear (r : Hunt.t) :
  Hunt.is_current_hunt (Hunt.clear_current r) = false.
Proof. unfold Hunt.clear_current. by destruct (Hunt.is_current_hunt r) eqn:E. Qed.

(** After the clearing of the flag and the write of a hunt that carries
    it, that hunt is the only one with the flag. *)
Lemma only_current_after_write self tb k :
  Hunt.is_current_hunt self = true ->
  objects_filter Hunt.is_current_hunt
    (<[k := set_pk (Some k) self]> (Hunt.clear_current <$> tb))
  = [set_pk (Some k) self].
Proof.
  intros Hcur. apply singleton_of_NoDup; [apply NoDup_objects_filter|].
  intros x. rewrite elem_of_objects_filter. split.
  - intros (Hx & j & row & Hj & ->).
    rewrite is_current_set_pk in Hx.
    destruct (decide (j = k)) as [->|Hne].
    + rewrite lookup_insert_eq in Hj. by injection Hj as <-.
    + rewrite lookup_insert_ne, lookup_fmap in Hj by done.
      destruct (tb !! j) as [old|]; simplify_eq/=.
      by rewrite is_current_clear in Hx.
  - intros ->. split; [done|].
    exists k, (set_pk (Some k) self). by rewrite lookup_insert_eq.
Qed.

(** A write of a hunt without the flag, over a row without the flag or
    under a new key, leaves the hunts with the flag as they were. *)
Lemma current_kept_by_write self tb k :
  Hunt.is_current_hunt self = false ->
  match tb !! k with
  | Some old => Hunt.is_current_hunt old = false
  | None => True
  end ->
  objects_filter Hunt.is_current_hunt (<[k := set_pk (Some k) self]> tb)
  ≡ₚ objects_filter Hunt.is_current_hunt tb.
Proof.
  intros Hself Hold. apply NoDup_Permutation; [apply NoDup_objects_filter..|].
  intros x. rewrite !elem_of_objects_filter. split.
  - intros (Hx & j & row & Hj & ->). split; [done|].
    destruct (decide (j = k)) as [->|Hne].
    + rewrite lookup_insert_eq in Hj. injection Hj as <-.
      rewrite !is_current_set_pk in Hx. congruence.
    + rewrite lookup_insert_ne in Hj by done. eauto.
  - intros (Hx & j & row & Hj & ->). split; [done|].
    destruct (decide (j = k)) as [->|Hne].
    + rewrite Hj in Hold. rewrite is_current_set_pk in Hx. congruence.
    + exists j, row. by rewrite lookup_insert_ne.
Qed.

(** Once one hunt is current, one hunt is current after every save:
    [clean] refuses the one save that would leave none. *)
Lemma save_keeps_one_current self tb :
  List.length (objects_filter Hunt.is_current_hunt tb) = 1 ->
  List.length
    (objects_filter Hunt.is_current_hunt (Hunt.save clean_fields self tb).2) = 1.
Proof.
  intros Hone.
  destruct (Hunt.save clean_fields self tb) as [[e|saved] tb'] eqn:Hsave; simpl.
  - apply save_raise in Hsave. by subst tb'.
  - apply save_ok in Hsave as (Hfull & tb1 & k & -> & Hk & -> & ->).
    apply full_clean_ok in Hfull as (_ & Hclean & _).
    rewrite clean_run in Hclean.
    destruct (Hunt.is_current_hunt self) eqn:Hcur.
    + by rewrite only_current_after_write.
    + rewrite current_kept_by_write; [done..|].
      simpl in Hclean. subst k. destruct (Hunt.id self) as [k|]; simpl in Hclean.
      * destruct (tb !! k) as [old|]; [|done].
        by destruct (Hunt.is_current_hunt old).
      * by rewrite next_pk_fresh.
Qed.

Lemma save_all_keeps_one_current (saves : list Hunt.t) tb :
  List.length (objects_filter Hunt.is_current_hunt tb) = 1 ->
  List.length
    (objects_filter Hunt.is_current_hunt (Hunt.save_all clean_fields saves tb)) = 1.
Proof.
  unfold Hunt.save_all. revert tb.
  induction saves as [|self saves IH]; intros tb Hone; simpl; [done|].
  by apply IH, save_keeps_one_current.
Qed.
End HuntFacts.



(** C2. An update that clears [is_current_hunt] on the stored current
    hunt is refused by [clean] with a [ValidationError]; so are
    [full_clean] and the save, and the table (the stored hunt with it) is
    what it was. *)
Theorem hunt_unset_current_rejected
    (clean_fields : Hunt.t -> bool) (tb : gmap nat Hunt.t)
    (k : nat) (old self : Hunt.t) :
  tb !! k = Some old ->
  Hunt.is_current_hunt old = true ->
  Hunt.id self = Some k ->
  Hunt.is_current_hunt self = false ->
  Hunt.clean self tb = (inl ValidationError, tb)
  /\ Hunt.full_clean clean_fields self tb = (inl ValidationError, tb)
  /\ Hunt.save clean_fields self tb = (inl ValidationError, tb)
  /\ (Hunt.save clean_fields self tb).2 !! k = Some old.
Proof.
  intros Hold Hcur Hid Hself.
  assert (Hunt.clean self tb = (inl ValidationError, tb)) as Hclean.
  { rewrite clean_run, Hself, Hid. simpl. by rewrite Hold, Hcur. }
  assert (Hunt.full_clean clean_fields self tb = (inl ValidationError, tb)) as Hfull.
  { destruct (full_clean_run clean_fields self tb) as [Hok|Hko]; [|done].
    apply full_clean_ok in Hok as (_ & Hok & _). congruence. }
  assert (Hunt.save clean_fields self tb = (inl ValidationError, tb)) as Hsave.
  { unfold Hunt.save, atomic, bind. by rewrite Hfull. }
  rewrite Hsave. done.
Qed.

Lemma hunt_unset_current_rejected_witness :
  Sample.two_hunts !! 2 = Some (set_pk (Some 2) Sample.hunt2015) /\
  Hunt.save Sample.clean_fields
    (Hunt.set_is_current_hunt false (set_pk (Some 2) Sample.hunt2015))
    Sample.two_hunts = (inl ValidationError, Sample.two_hunts).
Proof.
  split; [reflexivity|].
  apply (hunt_unset_current_rejected Sample.clean_fields Sample.two_hunts 2
           (set_pk (Some 2) Sample.hunt2015)
           (Hunt.set_is_current_hunt false (set_pk (Some 2) Sample.hunt2015)));
    reflexivity.
Defined.

(** ** Hunt: the derived states *)

(** C3. At the instant [now = start_date] the hunt is not open, and at
    the instant [now = end_date] it is not public: both comparisons of
    the code are strict. With [start_date < end_date] the hunt is then in
    none of the three states at either instant. *)
Theorem hunt_states_boundary (self : Hunt.t) :
  Hunt.is_open (Hunt.start_date self) (Hunt.start_date self) self = false
  /\ Hunt.is_locked (Hunt.start_date self) self = false
  /\ Hunt.is_public (Hunt.end_date self) self = false
  /\ Hunt.is_open (Hunt.end_date self) (Hunt.end_date self) self = false.
Proof.
  unfold Hunt.is_open, Hunt.is_locked, Hunt.is_public.
  rewrite !Z.gtb_ltb, !Z.ltb_irrefl. simpl. by rewrite andb_false_r.
Qed.

(** Away from the two instants, and with the end not before the start,
    the three states do part the time as the comparisons say. *)
Lemma hunt_states_off_boundary (self : Hunt.t) (now : Z) :
  (Hunt.start_date self <= Hunt.end_date self)%Z ->
  now <> Hunt.start_date self -> now <> Hunt.end_date self ->
  (Hunt.is_locked now self = true <-> (now < Hunt.start_date self)%Z)
  /\ (Hunt.is_open now now self = true <->
      (Hunt.start_date self <= now < Hunt.end_date self)%Z)
  /\ (Hunt.is_public now self = true <-> (now >= Hunt.end_date self)%Z)
  /\ (Hunt.is_locked now self, Hunt.is_open now now self, Hunt.is_public now self)
     ∈ [(true, false, false); (false, true, false); (false, false, true)].
Proof.
  intros Hle Hs He. unfold Hunt.is_locked, Hunt.is_open, Hunt.is_public.
  rewrite !Z.gtb_ltb.
  destruct (Z.ltb_spec now (Hunt.start_date self));
    destruct (Z.ltb_spec (Hunt.start_date self) now);
    destruct (Z.ltb_spec now (Hunt.end_date self));
    destruct (Z.ltb_spec (Hunt.end_date self) now);
    try lia; simpl; (repeat split; try lia; try done);
    rewrite !elem_of_cons; auto.
Qed.

(** ** Submission *)

Lemma same_letter_lower (c d : ascii) :
  bool_decide (lower_char c = lower_char d) = same_letter c d.
Proof.
  assert (forallb (fun c => forallb (fun d =>
            bool_decide (bool_decide (lower_char c = lower_char d) = same_letter c d))
            (ascii_of_nat <$> seq 0 256)) (ascii_of_nat <$> seq 0 256) = true)
    as Hall by (vm_compute; reflexivity).
  assert (forall a : ascii, In a (ascii_of_nat <$> seq 0 256)) as Hin.
  { intros a. rewrite <- (ascii_nat_embedding a).
    apply in_map, in_seq. pose proof (nat_ascii_bounded a). lia. }
  rewrite forallb_forall in Hall. specialize (Hall c (Hin c)).
  rewrite forallb_forall in Hall. specialize (Hall d (Hin d)).
  by apply bool_decide_eq_true in Hall.
Qed.

Lemma lower_caseless_eq (s t : string) :
  str_eqb (lower s) (lower t) = caseless_eq s t.
Proof.
  unfold str_eqb. revert t. induction s as [|c s IH]; intros [|d t]; simpl;
    try done.
  rewrite <- IH, <- same_letter_lower.
  destruct (decide (lower_char c = lower_char d)) as [Hc|Hc];
    destruct (decide (lower s = lower t)) as [Hs|Hs].
  - rewrite !bool_decide_eq_true_2; [done..|congruence].
  - rewrite (bool_decide_eq_true_2 _ Hc), !bool_decide_eq_false_2; [done..|congruence].
  - rewrite (bool_decide_eq_false_2 _ Hc), bool_decide_eq_false_2; [done|congruence].
  - rewrite (bool_decide_eq_false_2 _ Hc), bool_decide_eq_false_2; [done|congruence].
Qed.



(** C6. Every save of a submission, the first one (no key yet) or a later
    one, goes through, stamps [modified_date] with the time of the save
    and writes the stamped submission under its key; the stamping leaves
    the key and the other fields as they were. *)
Theorem submission_save_stamps
    (now : Z) (self : Submission.t) (tb : gmap nat Submission.t) :
  let stamped := Submission.set_modified_date now self in
  let k := match Submission.id self with Some k => k | None => next_pk tb end in
  Submission.save now self tb
  = (inr (set_pk (Some k) stamped), <[k := set_pk (Some k) stamped]> tb)
  /\ Submission.modified_date (set_pk (Some k) stamped) = now
  /\ Submission.id stamped = Submission.id self
  /\ Submission.team stamped = Submission.team self
  /\ Submission.submission_time stamped = Submission.submission_time self
  /\ Submission.submission_text stamped = Submission.submission_text self
  /\ Submission.response_text stamped = Submission.response_text self
  /\ Submission.puzzle stamped = Submission.puzzle self
  /\ match Submission.id self with
     | Some _ => True
     | None => tb !! k = None
     end.
Proof.
  intros stamped k. repeat split; try done.
  subst k. destruct (Submission.id self); [done|]. apply next_pk_fresh.
Qed.

(** ** Solve: one solve for a team and a puzzle *)

Section SolveFacts.
Implicit Types (tb : gmap nat Solve.t) (self : Solve.t).

Lemma unique_together_true self tb :
  Solve.unique_together self tb = true <->
  forall k r, tb !! k = Some r ->
    Some k = Solve.id self
    \/ ~ (Solve.puzzle r = Solve.puzzle self /\ Solve.team r = Solve.team self).
Proof.
  unfold Solve.unique_together. rewrite forallb_forall. split.
  - intros Hall k r Hkr.
    specialize (Hall (k, r)). rewrite <- list_elem_of_In in Hall.
    specialize (Hall (proj2 (elem_of_map_to_list _ _ _) Hkr)). simpl in Hall.
    apply orb_true_iff in Hall as [Hk|Hp].
    + left. by apply bool_decide_eq_true in Hk.
    + right. intros [Hp1 Hp2]. apply negb_true_iff, andb_false_iff in Hp.
      destruct Hp as [Hp|Hp]; by apply bool_decide_eq_false in Hp.
  - intros Hall [k r] Hin. apply list_elem_of_In, elem_of_map_to_list in Hin.
    simpl. destruct (Hall k r Hin) as [Hk|Hp].
    + by rewrite (bool_decide_eq_true_2 _ Hk).
    + apply orb_true_iff. right. apply negb_true_iff, andb_false_iff.
      destruct (decide (Solve.puzzle r = Solve.puzzle self)) as [Hq|Hq].
      * right. apply bool_decide_eq_false_2. tauto.
      * left. by apply bool_decide_eq_false_2.
Qed.

Lemma solve_save_run self tb :
  Solve.save self tb =
  if Solve.unique_together self tb
  then
    let k := match Solve.id self with Some k => k | None => next_pk tb end in
    (inr (set_pk (Some k) self), <[k := set_pk (Some k) self]> tb)
  else (inl IntegrityError, tb).
Proof.
  unfold Solve.save, bind, gets, model_save, raise.
  by destruct (Solve.unique_together self tb).
Qed.

Lemma solve_save_pairs_distinct self tb :
  Solve.pairs_distinct tb -> Solve.pairs_distinct (Solve.save self tb).2.
Proof.
  intros Hinj. rewrite solve_save_run.
  destruct (Solve.unique_together self tb) eqn:Hu; [|done]. simpl.
  rewrite unique_together_true in Hu.
  set (k := match Solve.id self with Some k => k | None => next_pk tb end).
  assert (forall j r, j <> k -> tb !! j = Some r ->
            ~ (Solve.puzzle r = Solve.puzzle self
               /\ Solve.team r = Solve.team self)) as Hother.
  { intros j r Hjk Hj. destruct (Hu j r Hj) as [Hid|Hp]; [|done].
    exfalso. apply Hjk. subst k. by rewrite <- Hid. }
  intros k1 k2 r1 r2 H1 H2 Hp Ht.
  destruct (decide (k1 = k)) as [->|Hk1]; destruct (decide (k2 = k)) as [->|Hk2];
    [done| | |].
  - rewrite lookup_insert_eq in H1. rewrite lookup_insert_ne in H2 by done.
    injection H1 as <-. exfalso. apply (Hother k2 r2); [done..|]. simpl in *. auto.
  - rewrite lookup_insert_eq in H2. rewrite lookup_insert_ne in H1 by done.
    injection H2 as <-. exfalso. apply (Hother k1 r1); [done..|]. simpl in *. auto.
  - rewrite lookup_insert_ne in H1, H2 by done. eauto.
Qed.

Lemma prior_solve_blocks p tm sub tb :
  Solve.solves_of p tm tb <> [] ->
  Solve.objects_create p tm sub tb = (inl IntegrityError, tb).
Proof.
  intros Hprior. unfold Solve.objects_create. rewrite solve_save_run.
  destruct (Solve.unique_together _ tb) eqn:Hu; [|done]. exfalso.
  rewrite unique_together_true in Hu.
  destruct (Solve.solves_of p tm tb) as [|x l] eqn:E; [done|].
  assert (x ∈ Solve.solves_of p tm tb) as Hx by (rewrite E; left).
  apply elem_of_objects_filter in Hx as (HP & k & r & Hkr & ->).
  apply andb_true_iff in HP as [H1 H2].
  apply bool_decide_eq_true in H1, H2. simpl in H1, H2.
  destruct (Hu k r Hkr) as [Hid|Hp]; [done|]. apply Hp. by simpl.
Qed.

Lemma create_solve_state p tm sub tb :
  (Grader.create_solve p tm sub tb).2 = (Solve.objects_create p tm sub tb).2.
Proof.
  unfold Grader.create_solve, try_except, atomic, bind, Solve.objects_create.
  rewrite solve_save_run. by destruct (Solve.unique_together _ tb).
Qed.

Lemma step_pairs_distinct tb o : Solve.pairs_distinct tb -> Solve.pairs_distinct (Grader.step tb o).
Proof.
  intros Hinj. destruct o as [p tm sub|p tm sub|self]; simpl.
  - unfold Grader.record_solve, bind, gets.
    destruct (Solve.solves_of p tm tb); [|done].
    rewrite create_solve_state. by apply solve_save_pairs_distinct.
  - rewrite create_solve_state. by apply solve_save_pairs_distinct.
  - by apply solve_save_pairs_distinct.
Qed.

Lemma run_pairs_distinct ops tb : Solve.pairs_distinct tb -> Solve.pairs_distinct (Grader.run ops tb).
Proof.
  unfold Grader.run. revert tb.
  induction ops as [|o ops IH]; intros tb Hinj; simpl; [done|].
  by apply IH, step_pairs_distinct.
Qed.

Lemma pairs_distinct_at_most_one p tm tb :
  Solve.pairs_distinct tb -> List.length (Solve.solves_of p tm tb) <= 1.
Proof.
  intros Hinj. pose proof (NoDup_objects_filter
    (fun s => bool_decide (Solve.puzzle s = p) && bool_decide (Solve.team s = tm)) tb)
    as Hnd.
  fold (Solve.solves_of p tm tb) in Hnd.
  destruct (Solve.solves_of p tm tb) as [|x [|y l]] eqn:E; simpl; [lia..|].
  exfalso.
  assert (x ∈ Solve.solves_of p tm tb) as Hx by (rewrite E; left).
  assert (y ∈ Solve.solves_of p tm tb) as Hy by (rewrite E; right; left).
  apply elem_of_objects_filter in Hx as (HPx & k1 & r1 & Hk1 & ->).
  apply elem_of_objects_filter in Hy as (HPy & k2 & r2 & Hk2 & ->).
  apply andb_true_iff in HPx as [Hx1 Hx2], HPy as [Hy1 Hy2].
  apply bool_decide_eq_true in Hx1, Hx2, Hy1, Hy2. simpl in *.
  assert (k1 = k2) as -> by (eapply Hinj; eauto; congruence).
  assert (r1 = r2) as -> by congruence.
  apply NoDup_cons in Hnd as [Hnotin _]. apply Hnotin. left.
Qed.

Lemma run_at_most_one ops p tm :
  List.length (Solve.solves_of p tm (Grader.run ops ∅)) <= 1.
Proof.
  apply pairs_distinct_at_most_one, run_pairs_distinct.
  intros k1 k2 r1 r2 H1. by rewrite lookup_empty in H1.
Qed.

Lemma record_solve_prior p tm sub tb :
  Solve.solves_of p tm tb <> [] ->
  Grader.create_solve p tm sub tb = (inr Grader.AlreadySolved, tb)
  /\ Grader.record_solve p tm sub tb = (inr Grader.AlreadySolved, tb).
Proof.
  intros Hprior. split.
  - unfold Grader.create_solve, try_except, atomic, bind.
    by rewrite (prior_solve_blocks p tm sub tb Hprior).
  - unfold Grader.record_solve, bind, gets.
    by destruct (Solve.solves_of p tm tb).
Qed.
End SolveFacts.

(** C5. However the solve table was filled (by the pipeline's step, with
    or without its look for a prior solve, and by plain saves), no team
    has two solves of a puzzle; and when a team already has a solve of a
    puzzle, creating a second one fails on the unique pair with
    [IntegrityError] and writes nothing, and the pipeline's step answers
    "already solved" instead of raising, the table being as it was. *)
Theorem solve_second_attempt_ignored
    (ops : list Grader.op) (p tm sub : nat) :
  let tb := Grader.run ops ∅ in
  Solve.solves_of p tm tb <> [] ->
  (forall p' tm', List.length (Solve.solves_of p' tm' tb) <= 1)
  /\ List.length (Solve.solves_of p tm tb) = 1
  /\ Solve.objects_create p tm sub tb = (inl IntegrityError, tb)
  /\ Grader.create_solve p tm sub tb = (inr Grader.AlreadySolved, tb)
  /\ Grader.record_solve p tm sub tb = (inr Grader.AlreadySolved, tb)
  /\ Grader.run (ops ++ [Grader.Record p tm sub; Grader.Create p tm sub]) ∅ = tb.
Proof.
  intros tb Hprior.
  pose proof (record_solve_prior p tm sub tb Hprior) as [Hcreate Hrecord].
  split; [intros; apply run_at_most_one|].
  split.
  { pose proof (run_at_most_one ops p tm) as Hle. fold tb in Hle.
    destruct (Solve.solves_of p tm tb) as [|x [|y l]]; simpl in *; [done|lia|lia]. }
  split; [by apply prior_solve_blocks|].
  split; [done|]. split; [done|].
  unfold Grader.run. rewrite foldl_app. fold (Grader.run ops ∅). fold tb.
  simpl. rewrite Hrecord. simpl. by rewrite Hcreate.
Qed.

Lemma solve_second_attempt_ignored_witness :
  Solve.solves_of 7 5 Sample.solved_once <> []
  /\ Grader.record_solve 7 5 12 Sample.solved_once
     = (inr Grader.AlreadySolved, Sample.solved_once)
  /\ List.length (Solve.solves_of 7 5 Sample.solved_once) = 1.
Proof.
  assert (Solve.solves_of 7 5 Sample.solved_once <> []) as Hprior
    by (vm_compute; discriminate).
  split; [exact Hprior|].
  destruct (solve_second_attempt_ignored [Grader.Record 7 5 11] 7 5 12 Hprior)
    as (_ & Hone & _ & _ & Hrecord & _).
  split; [exact Hrecord | exact Hone].
Defined.

(** ** Registration *)

Lemma objects_filter_nil_iff {A} `{Model A} (P : A -> bool) (tb : gmap nat A) :
  objects_filter P tb = [] <->
  forall k r, tb !! k = Some r -> P (set_pk (Some k) r) = false.
Proof.
  split.
  - intros Hnil k r Hkr. destruct (P (set_pk (Some k) r)) eqn:HP; [|done].
    assert (set_pk (Some k) r ∈ objects_filter P tb) as Hin
      by (apply elem_of_objects_filter; eauto).
    rewrite Hnil in Hin. by apply not_elem_of_nil in Hin.
  - intros Hall. destruct (objects_filter P tb) as [|x l] eqn:E; [done|].
    assert (x ∈ objects_filter P tb) as Hin by (rewrite E; left).
    apply elem_of_objects_filter in Hin as (HP & k & r & Hkr & ->).
    rewrite (Hall k r Hkr) in HP. discriminate.
Qed.

Lemma objects_filter_one_row {A} `{Model A} (P : A -> bool) (tb : gmap nat A) x :
  objects_filter P tb = [x] ->
  P x = true /\ exists k r, tb !! k = Some r /\ x = set_pk (Some k) r.
Proof.
  intros Hone. apply elem_of_objects_filter. rewrite Hone. left.
Qed.



Section RegistrationFacts.
Import InfoViews.
Variable team_from_user_hunt : DB -> User -> Hunt.t -> exn + option Team.t.
Variable rnd : nat -> nat.
Implicit Types (request : Request) (db : DB) (curr_hunt : Hunt.t).

Lemma render_page_run curr_hunt (branch : flow) db :
  render_page curr_hunt branch db =
  (inr match branch with
       | Return response => response
       | Next (Some team) => RenderRegisteredTeam team
       | Next None => RenderTeams (objects_filter (in_team_set curr_hunt) (teams db))
       end, db).
Proof. by destruct branch as [resp|[t|]]. Qed.

Lemma registration_new_team request db curr_hunt team0 :
  objects_filter Hunt.is_current_hunt (hunts db) = [curr_hunt] ->
  team_from_user_hunt db (user request) curr_hunt = inr team0 ->
  method request = "POST" ->
  POST request !! "form_type" = Some "new_team" ->
  registration team_from_user_hunt rnd request db
  = match new_team rnd request curr_hunt team0 db with
    | (inr branch, db') => render_page curr_hunt branch db'
    | (inl e, db') => (inl e, db')
    end.
Proof.
  intros Hcur Htf Hm Hform.
  unfold registration, bind, on_hunts, zoom, Hunt.get_current, objects_get.
  rewrite Hcur, Htf, Hm, Hform. done.
Qed.

Lemma registration_join_team request db curr_hunt team0 :
  objects_filter Hunt.is_current_hunt (hunts db) = [curr_hunt] ->
  team_from_user_hunt db (user request) curr_hunt = inr team0 ->
  method request = "POST" ->
  POST request !! "form_type" = Some "join_team" ->
  registration team_from_user_hunt rnd request db
  = match join_team request curr_hunt db with
    | (inr branch, db') => render_page curr_hunt branch db'
    | (inl e, db') => (inl e, db')
    end.
Proof.
  intros Hcur Htf Hm Hform.
  unfold registration, bind, on_hunts, zoom, Hunt.get_current, objects_get.
  rewrite Hcur, Htf, Hm, Hform. done.
Qed.

Lemma iexact_found curr_hunt (name : string) (tb : gmap nat Team.t) :
  objects_filter (fun tm => in_team_set curr_hunt tm && iexact (Some name) tm) tb
    <> [] <->
  exists k existing,
    tb !! k = Some existing
    /\ Some (Team.hunt existing) = pk curr_hunt
    /\ caseless_eq (Team.team_name existing) name = true.
Proof.
  rewrite objects_filter_nil_iff. split.
  - intros Hnot.
    destruct (objects_filter
                (fun tm => in_team_set curr_hunt tm && iexact (Some name) tm) tb)
      as [|x l] eqn:E.
    + exfalso. apply Hnot. exact (proj1 (objects_filter_nil_iff _ _) E).
    + assert (x ∈ x :: l) as Hin by left. rewrite <- E in Hin.
      apply elem_of_objects_filter in Hin as (HP & k & r & Hkr & ->).
      apply andb_true_iff in HP as [Hh Hn]. apply bool_decide_eq_true in Hh.
      simpl in Hh, Hn. rewrite lower_caseless_eq in Hn. eauto.
  - intros (k & existing & Hk & Hh & Hn) Hall.
    specialize (Hall k existing Hk). simpl in Hall.
    unfold in_team_set in Hall. simpl in Hall.
    rewrite (bool_decide_eq_true_2 _ Hh), lower_caseless_eq, Hn in Hall.
    discriminate.
Qed.

Lemma new_team_run request db curr_hunt team0 (name : string) :
  POST request !! "team_name" = Some name ->
  new_team rnd request curr_hunt team0 db =
  if bool_decide
       (objects_filter
          (fun tm => in_team_set curr_hunt tm && iexact (Some name) tm)
          (teams db) = [])
  then
    if bool_decide (name = "") then (inr (Next team0), db)
    else
      (team <- on_teams (Team_objects_create (Some name) curr_hunt
                           (POST request !! "need_room") (random_join_code rnd)) ;;
       teams_add (user request) team ;;;
       ret (Next (Some team))) db
  else (inr (Return (HttpResponse "fail-exists")), db).
Proof.
  intros Hname. unfold new_team, bind at 1, gets. rewrite Hname.
  destruct (bool_decide (objects_filter _ (teams db) = [])); simpl; [|done].
  destruct (decide (name = "")) as [->|Hne].
  - by rewrite !bool_decide_eq_true_2.
  - rewrite !bool_decide_eq_false_2; [done..|congruence].
Qed.

(** The branch [join_team] once the team has been found: [team.hunt] is
    the current hunt, and the rest is the two tests and the adding. *)
Lemma join_team_run request db curr_hunt (team : Team.t) :
  objects_filter Hunt.is_current_hunt (hunts db) = [curr_hunt] ->
  objects_filter
    (fun tm => in_team_set curr_hunt tm && exact (POST request !! "team_name") tm)
    (teams db) = [team] ->
  exists k, pk team = Some k /\
  join_team request curr_hunt db =
  if (Z.of_nat (size (person_set team db)) >=? Hunt.team_size curr_hunt)%Z
  then (inr (Return (HttpResponse "fail-full")), db)
  else
    match POST request !! "join_code" with
    | None => (inl AttributeError, db)
    | Some code =>
        if caseless_eq (Team.join_code team) code
        then
          match person (user request) with
          | Some p =>
              (inr (Next (Some team)),
               set_person_teams ({[ (p, k) ]} ∪ person_teams db) db)
          | None => (inl AttributeError, db)
          end
        else (inr (Return (HttpResponse "fail-password")), db)
    end.
Proof.
  intros Hcur Hteam.
  apply objects_filter_one_row in Hcur as (_ & h & row & Hrow & Hcurr).
  pose proof (objects_filter_one_row _ _ _ Hteam) as (HP & k & r & Hr & Hk).
  apply andb_true_iff in HP as [Hin _]. apply bool_decide_eq_true in Hin.
  assert (pk team = Some k) as Hpk by (by rewrite Hk).
  assert (Team.hunt team = h) as Hh.
  { rewrite Hcurr in Hin. simpl in Hin. congruence. }
  exists k. split; [done|].
  unfold join_team, bind at 1, on_teams, zoom, objects_get. rewrite Hteam.
  replace (set_teams (teams db) db) with db by (by destruct db).
  unfold bind at 1, gets. unfold bind at 1, on_hunts, zoom, objects_get_pk.
  rewrite Hh, Hrow, <- Hcurr.
  destruct (Z.of_nat (size (person_set team db)) >=? Hunt.team_size curr_hunt)%Z;
    [done|].
  unfold bind at 1. destruct (POST request !! "join_code") as [code|]; [|done].
  unfold ret at 1. rewrite lower_caseless_eq.
  destruct (caseless_eq (Team.join_code team) code); simpl; [|done].
  unfold bind, teams_add. rewrite Hpk.
  by destruct (person (user request)).
Qed.

(** C9. When the team named by the request is found and has as many
    members as the [team_size] of its hunt, or more, the answer is
    ['fail-full'] and nothing is written, whatever join code the
    request carries (a matching one, another one, none). *)
Theorem join_team_full_first request db curr_hunt team0 (team : Team.t) :
  objects_filter Hunt.is_current_hunt (hunts db) = [curr_hunt] ->
  team_from_user_hunt db (user request) curr_hunt = inr team0 ->
  method request = "POST" ->
  POST request !! "form_type" = Some "join_team" ->
  objects_filter
    (fun tm => in_team_set curr_hunt tm && exact (POST request !! "team_name") tm)
    (teams db) = [team] ->
  (Z.of_nat (size (person_set team db)) >= Hunt.team_size curr_hunt)%Z ->
  registration team_from_user_hunt rnd request db
  = (inr (HttpResponse "fail-full"), db)
  /\ (registration team_from_user_hunt rnd request db).1
     <> inr (HttpResponse "fail-password").
Proof.
  intros Hcur Htf Hm Hform Hteam Hfull.
  destruct (join_team_run request db curr_hunt team Hcur Hteam) as (k & Hk & Hrun).
  rewrite (registration_join_team request db curr_hunt team0 Hcur Htf Hm Hform).
  rewrite Hrun.
  destruct (Z.geb_spec (Z.of_nat (size (person_set team db)))
              (Hunt.team_size curr_hunt)) as [_|Hlt]; [|lia].
  by split.
Qed.

(** C10. The teams of a hunt having names that differ up to letter
    case, a request to join that names a team of the current hunt in
    another letter case finds no team: [get] raises
    [ObjectDoesNotExist], the view answers neither ['fail-full'] nor
    ['fail-password'], and nothing is written. *)
Theorem join_team_name_exact request db curr_hunt team0
    (name : string) (k : nat) (existing : Team.t) :
  objects_filter Hunt.is_current_hunt (hunts db) = [curr_hunt] ->
  team_from_user_hunt db (user request) curr_hunt = inr team0 ->
  method request = "POST" ->
  POST request !! "form_type" = Some "join_team" ->
  POST request !! "team_name" = Some name ->
  names_distinct db ->
  teams db !! k = Some existing ->
  Some (Team.hunt existing) = pk curr_hunt ->
  caseless_eq (Team.team_name existing) name = true ->
  Team.team_name existing <> name ->
  registration team_from_user_hunt rnd request db = (inl ObjectDoesNotExist, db).
Proof.
  intros Hcur Htf Hm Hform Hname Hdist Hk Hin Hsame Hdiff.
  rewrite (registration_join_team request db curr_hunt team0 Hcur Htf Hm Hform).
  assert (objects_filter
            (fun tm => in_team_set curr_hunt tm && exact (POST request !! "team_name") tm)
            (teams db) = []) as Hnone.
  { apply objects_filter_nil_iff. intros j r Hj. rewrite Hname. simpl.
    apply andb_false_iff.
    destruct (decide (Some (Team.hunt r) = pk curr_hunt)) as [Hjin|Hjout].
    - right. apply bool_decide_eq_false_2. intros Hexact.
      rewrite <- lower_caseless_eq in Hsame. apply bool_decide_eq_true in Hsame.
      assert (k = j) as <-.
      { apply (Hdist k j existing r Hk Hj); congruence. }
      congruence.
    - left. by apply bool_decide_eq_false_2. }
  unfold join_team, bind at 1, on_teams, zoom, objects_get.
  rewrite Hnone. simpl. by destruct db.
Qed.

(** *** The names of the teams of a hunt stay distinct up to letter case *)

Lemma teams_add_teams (u : User) (tm : Team.t) db :
  teams (teams_add u tm db).2 = teams db.
Proof. unfold teams_add. by destruct (person u), (pk tm). Qed.

Lemma join_team_teams request curr_hunt db :
  teams (join_team request curr_hunt db).2 = teams db.
Proof.
  unfold join_team, bind at 1, on_teams, zoom.
  destruct (objects_get _ (teams db)) as [[e|team] tb'] eqn:Hget.
  { unfold objects_get in Hget.
    destruct (objects_filter _ (teams db)) as [|? [|]]; by simplify_eq/=. }
  assert (tb' = teams db) as ->.
  { unfold objects_get in Hget.
    destruct (objects_filter _ (teams db)) as [|? [|]]; by simplify_eq/=. }
  replace (set_teams (teams db) db) with db by (by destruct db).
  unfold bind at 1, gets. unfold bind at 1, on_hunts, zoom, objects_get_pk.
  destruct (hunts db !! Team.hunt team) as [row|]; [|done].
  destruct (_ >=? _)%Z; [done|].
  unfold bind at 1. destruct (POST request !! "join_code") as [code|]; [|done].
  unfold ret at 1. destruct (negb _); [done|].
  unfold bind. pose proof (teams_add_teams (user request) team db) as Hadd.
  by destruct (teams_add (user request) team db) as [[e|[]] db'].
Qed.

Lemma leave_team_teams request (team : option Team.t) db :
  teams (leave_team request team db).2 = teams db.
Proof.
  unfold leave_team, bind, teams_remove.
  destruct (person (user request)); [|done]. by destruct (team ≫= pk).
Qed.

Lemma new_team_teams request curr_hunt team0 db :
  teams (new_team rnd request curr_hunt team0 db).2 = teams db
  \/ exists (name loc : string) (h : nat),
       pk curr_hunt = Some h
       /\ objects_filter
            (fun tm => in_team_set curr_hunt tm && iexact (Some name) tm)
            (teams db) = []
       /\ teams (new_team rnd request curr_hunt team0 db).2
          = <[next_pk (teams db) :=
                Team.mk (Some (next_pk (teams db))) name h loc
                        (random_join_code rnd) false]> (teams db).
Proof.
  destruct (POST request !! "team_name") as [name|] eqn:Hname.
  - rewrite (new_team_run request db curr_hunt team0 name Hname).
    destruct (bool_decide_reflect
                (objects_filter
                   (fun tm => in_team_set curr_hunt tm && iexact (Some name) tm)
                   (teams db) = [])) as [Hnone|]; [|by left].
    destruct (bool_decide (name = "")); [by left|].
    unfold bind at 1, on_teams, zoom, Team_objects_create.
    destruct (pk curr_hunt) as [h|] eqn:Hpk; [|by left].
    destruct (POST request !! "need_room") as [loc|]; [|by left].
    right. exists name, loc, h. split; [done|]. split; [done|].
    unfold model_save. cbn [pk Team.model Team.id].
    unfold bind.
    match goal with
    | |- context [teams_add ?u ?tm ?d] =>
        pose proof (teams_add_teams u tm d) as Hadd;
        destruct (teams_add u tm d) as [[e|[]] db']
    end; simpl in *; by rewrite Hadd.
  - left. unfold new_team, bind at 1, gets. rewrite Hname. simpl.
    rewrite (proj2 (objects_filter_nil_iff _ (teams db))).
    + done.
    + intros k r _. apply andb_false_r.
Qed.

Lemma registration_teams request db :
  teams (registration team_from_user_hunt rnd request db).2 = teams db
  \/ exists (name loc : string) (h : nat) (curr_hunt : Hunt.t),
       pk curr_hunt = Some h
       /\ objects_filter
            (fun tm => in_team_set curr_hunt tm && iexact (Some name) tm)
            (teams db) = []
       /\ teams (registration team_from_user_hunt rnd request db).2
          = <[next_pk (teams db) :=
                Team.mk (Some (next_pk (teams db))) name h loc
                        (random_join_code rnd) false]> (teams db).
Proof.
  assert (forall res, res = registration team_from_user_hunt rnd request db ->
            teams res.2 = teams db
            \/ exists curr_hunt team0,
                 teams res.2 = teams (new_team rnd request curr_hunt team0 db).2)
    as Hcases.
  { intros res.
    unfold registration, bind at 1, on_hunts, zoom, Hunt.get_current, objects_get.
    destruct (objects_filter Hunt.is_current_hunt (hunts db)) as [|curr_hunt [|]];
      [intros ->; by left| |intros ->; by left].
    unfold bind at 1.
    destruct (team_from_user_hunt db (user request) curr_hunt) as [e|team0];
      [intros ->; by left|].
    unfold bind at 1.
    assert (forall (m : M DB flow),
              teams (match m db with
                     | (inr a, s') => render_page curr_hunt a s'
                     | (inl e, s') => (inl e, s')
                     end).2 = teams (m db).2) as Hfin.
    { intros m. destruct (m db) as [[e|b] s']; [done|]. by rewrite render_page_run. }
    intros ->. rewrite Hfin.
    destruct (str_eqb (method request) "POST" && _); [|by left].
    destruct (bool_decide (_ = Some "new_team")); [right; by exists curr_hunt, team0|].
    destruct (bool_decide (_ = Some "join_team")); [left; apply join_team_teams|].
    destruct (bool_decide (_ = Some "leave_team")); [left; apply leave_team_teams|].
    by left. }
  destruct (Hcases _ eq_refl) as [Hsame|(curr_hunt & team0 & Hnew)].
  - by left.
  - rewrite Hnew.
    destruct (new_team_teams request curr_hunt team0 db)
      as [?|(name & loc & h & ? & ? & ?)]; [by left|].
    right. by exists name, loc, h, curr_hunt.
Qed.

(** Whatever the request, [registration] keeps the names of the teams of
    a hunt distinct up to letter case. *)
Lemma registration_names_distinct request db :
  names_distinct db ->
  names_distinct (registration team_from_user_hunt rnd request db).2.
Proof.
  intros Hdist. unfold names_distinct.
  destruct (registration_teams request db)
    as [->|(name & loc & h & curr_hunt & Hpk & Hnone & ->)]; [done|].
  rewrite objects_filter_nil_iff in Hnone.
  assert (forall j r, teams db !! j = Some r -> Team.hunt r = h ->
            lower (Team.team_name r) <> lower name) as Hnew.
  { intros j r Hj Hh Hlow. specialize (Hnone j r Hj). simpl in Hnone.
    unfold in_team_set, str_eqb in Hnone. simpl in Hnone.
    simpl in Hpk. rewrite !bool_decide_eq_true_2 in Hnone; [done|done|congruence]. }
  intros k1 k2 t1 t2 H1 H2 Hh Hn.
  destruct (decide (k1 = next_pk (teams db))) as [->|Hk1];
    destruct (decide (k2 = next_pk (teams db))) as [->|Hk2]; [done| | |].
  - rewrite lookup_insert_eq in H1. rewrite lookup_insert_ne in H2 by done.
    injection H1 as <-. simpl in *. exfalso. by apply (Hnew k2 t2).
  - rewrite lookup_insert_eq in H2. rewrite lookup_insert_ne in H1 by done.
    injection H2 as <-. simpl in *. exfalso. by apply (Hnew k1 t1).
  - rewrite lookup_insert_ne in H1, H2 by done. eauto.
Qed.
End RegistrationFacts.




Lemma join_team_full_first_witness :
  (Z.of_nat (size (InfoViews.person_set Sample.foo Sample.db2))
   >= Hunt.team_size Sample.current)%Z
  /\ InfoViews.registration Sample.team_from_user_hunt Sample.rnd
       (Sample.join_foo Sample.carol "Foo" "xxxxx") Sample.db2
     = (inr (InfoViews.HttpResponse "fail-full"), Sample.db2)
  /\ InfoViews.registration Sample.team_from_user_hunt Sample.rnd
       (Sample.join_foo Sample.carol "Foo" "9GPW5") Sample.db2
     = (inr (InfoViews.HttpResponse "fail-full"), Sample.db2).
Proof.
  assert (Z.of_nat (size (InfoViews.person_set Sample.foo Sample.db2))
          >= Hunt.team_size Sample.current)%Z as Hfull
    by (vm_compute; discriminate).
  split; [exact Hfull|]. split.
  - apply (join_team_full_first Sample.team_from_user_hunt Sample.rnd
             (Sample.join_foo Sample.carol "Foo" "xxxxx") Sample.db2
             Sample.current None Sample.foo);
      [vm_compute; reflexivity..|exact Hfull].
  - apply (join_team_full_first Sample.team_from_user_hunt Sample.rnd
             (Sample.join_foo Sample.carol "Foo" "9GPW5") Sample.db2
             Sample.current None Sample.foo);
      [vm_compute; reflexivity..|exact Hfull].
Defined.

Lemma join_team_name_exact_witness :
  InfoViews.teams Sample.db1 !! 1 = Some Sample.foo
  /\ caseless_eq (Team.team_name Sample.foo) "foo" = true
  /\ InfoViews.registration Sample.team_from_user_hunt Sample.rnd
       (Sample.join_foo Sample.carol "foo" "9GPW5") Sample.db1
     = (inl ObjectDoesNotExist, Sample.db1).
Proof.
  assert (InfoViews.teams Sample.db1 = {[ 1 := Sample.foo ]}) as Hteams
    by (vm_compute; reflexivity).
  assert (InfoViews.names_distinct Sample.db1) as Hdist.
  { intros k1 k2 t1 t2 H1 H2 _ _. rewrite Hteams in H1, H2.
    apply lookup_singleton_Some in H1 as [<- _].
    apply lookup_singleton_Some in H2 as [<- _]. reflexivity. }
  split; [vm_compute; reflexivity|]. split; [reflexivity|].
  apply (join_team_name_exact Sample.team_from_user_hunt Sample.rnd
           (Sample.join_foo Sample.carol "foo" "9GPW5") Sample.db1
           Sample.current None "foo" 1 Sample.foo);
    [vm_compute; reflexivity..|exact Hdist|vm_compute; reflexivity| | |].
  - reflexivity.
  - reflexivity.
  - discriminate.
Defined.


(** * Further properties *)

(** ** Hunt: what a save keeps *)

Section HuntSaves.
Variable clean_fields : Hunt.t -> bool.
Implicit Types (self : Hunt.t) (tb : gmap nat Hunt.t).

Lemma hunt_number_unique_true self tb :
  Hunt.hunt_number_unique self tb = true <->
  forall k r, tb !! k = Some r ->
    Some k = Hunt.id self \/ Hunt.hunt_number r <> Hunt.hunt_number self.
Proof.
  unfold Hunt.hunt_number_unique. rewrite forallb_forall. split.
  - intros Hall k r Hkr.
    specialize (Hall (k, r)). rewrite <- list_elem_of_In in Hall.
    specialize (Hall (proj2 (elem_of_map_to_list _ _ _) Hkr)). simpl in Hall.
    apply orb_true_iff in Hall as [Hk|Hn].
    + left. by apply bool_decide_eq_true in Hk.
    + right. apply negb_true_iff, Z.eqb_neq in Hn. done.
  - intros Hall [k r] Hin. apply list_elem_of_In, elem_of_map_to_list in Hin.
    simpl. apply orb_true_iff. destruct (Hall k r Hin) as [Hk|Hn].
    + left. by apply bool_decide_eq_true_2.
    + right. by apply negb_true_iff, Z.eqb_neq.
Qed.

Lemma hunt_number_unique_clear self tb :
  Hunt.hunt_number_unique self (Hunt.clear_current <$> tb)
  = Hunt.hunt_number_unique self tb.
Proof.
  apply eq_true_iff_eq. rewrite !hunt_number_unique_true. split.
  - intros Hall k r Hkr. specialize (Hall k (Hunt.clear_current r)).
    rewrite lookup_fmap, Hkr in Hall. specialize (Hall eq_refl).
    unfold Hunt.clear_current in Hall. by destruct (Hunt.is_current_hunt r).
  - intros Hall k r Hkr. rewrite lookup_fmap in Hkr.
    destruct (tb !! k) as [r0|] eqn:E; [|done]. injection Hkr as <-.
    specialize (Hall k r0 E).
    unfold Hunt.clear_current. by destruct (Hunt.is_current_hunt r0).
Qed.

(** [Hunt.save], step by step. *)
Lemma save_run self tb :
  Hunt.save clean_fields self tb =
  if clean_fields self
     && negb (negb (Hunt.is_current_hunt self)
              && match Hunt.id self ≫= (tb !!.) with
                 | Some old => Hunt.is_current_hunt old
                 | None => false
                 end)
     && Hunt.hunt_number_unique self tb
  then
    let tb1 := if Hunt.is_current_hunt self
               then Hunt.clear_current <$> tb else tb in
    let k := match Hunt.id self with Some k => k | None => next_pk tb1 end in
    (inr (set_pk (Some k) self), <[k := set_pk (Some k) self]> tb1)
  else (inl ValidationError, tb).
Proof.
  unfold Hunt.save, atomic, bind at 1.
  unfold Hunt.full_clean, Hunt.collect, bind, try_except, gets, ret, raise.
  destruct (clean_fields self); simpl; rewrite clean_run;
    destruct (negb _ && _) eqn:Hclean; simpl;
    destruct (Hunt.hunt_number_unique self tb) eqn:Hu; simpl; try done.
  destruct (Hunt.is_current_hunt self); simpl.
  - unfold Hunt.update_current_false, modify, Hunt.super_save, bind, gets. simpl.
    by rewrite hunt_number_unique_clear, Hu.
  - unfold Hunt.super_save, bind, gets. by rewrite Hu.
Qed.

(** X1. Once exactly one hunt is current, exactly one hunt is current
    after any sequence of saves, whether they carry the flag or not and
    whether they go through or raise: the lookup of the current hunt,
    which every view starts with, still gives one hunt. *)
Theorem hunt_saves_keep_one_current (saves : list Hunt.t) tb :
  List.length (objects_filter Hunt.is_current_hunt tb) = 1 ->
  List.length (objects_filter Hunt.is_current_hunt
                 (Hunt.save_all clean_fields saves tb)) = 1
  /\ exists h,
       Hunt.get_current (Hunt.save_all clean_fields saves tb)
       = (inr h, Hunt.save_all clean_fields saves tb).
Proof.
  intros Hone.
  pose proof (save_all_keeps_one_current clean_fields saves tb Hone) as Hlen.
  split; [done|]. unfold Hunt.get_current, objects_get.
  destruct (objects_filter Hunt.is_current_hunt
              (Hunt.save_all clean_fields saves tb)) as [|h [|]]; try done.
  by exists h.
Qed.

(** X2. A save of a hunt without the flag, whether it goes through or
    raises, leaves the hunts that are current as they were. *)
Theorem hunt_save_without_flag_keeps_current self tb :
  Hunt.is_current_hunt self = false ->
  objects_filter Hunt.is_current_hunt (Hunt.save clean_fields self tb).2
  ≡ₚ objects_filter Hunt.is_current_hunt tb.
Proof.
  intros Hflag. rewrite save_run, Hflag.
  destruct (clean_fields self); simpl; [|done].
  destruct (Hunt.id self) as [k|] eqn:Hid; simpl.
  - destruct (tb !! k) as [old|] eqn:Hold; simpl.
    + destruct (Hunt.is_current_hunt old) eqn:Hcur; simpl; [done|].
      destruct (Hunt.hunt_number_unique self tb); simpl; [|done].
      apply current_kept_by_write; [done|]. by rewrite Hold.
    + destruct (Hunt.hunt_number_unique self tb); simpl; [|done].
      apply current_kept_by_write; [done|]. by rewrite Hold.
  - destruct (Hunt.hunt_number_unique self tb); simpl; [|done].
    apply current_kept_by_write; [done|]. by rewrite next_pk_fresh.
Qed.

(** X3. The hunts of the table having distinct numbers, they still have
    after a save, whatever the saved hunt. *)
Theorem hunt_save_keeps_numbers_distinct self tb :
  hunt_numbers_distinct tb ->
  hunt_numbers_distinct (Hunt.save clean_fields self tb).2.
Proof.
  intros Hdist. rewrite save_run.
  destruct (clean_fields self && _ && Hunt.hunt_number_unique self tb) eqn:Hok;
    [|done].
  apply andb_true_iff in Hok as [_ Hu]. rewrite hunt_number_unique_true in Hu.
  cbv zeta. cbn [snd].
  set (tb1 := if Hunt.is_current_hunt self then Hunt.clear_current <$> tb else tb).
  set (k := match Hunt.id self with Some k => k | None => next_pk tb1 end).
  assert (forall j r, tb1 !! j = Some r ->
            exists r0, tb !! j = Some r0
                       /\ Hunt.hunt_number r = Hunt.hunt_number r0) as Hback.
  { intros j r Hj. unfold tb1 in Hj. destruct (Hunt.is_current_hunt self).
    - rewrite lookup_fmap in Hj. destruct (tb !! j) as [r0|]; [|done].
      injection Hj as <-. exists r0. split; [done|].
      unfold Hunt.clear_current. by destruct (Hunt.is_current_hunt r0).
    - by exists r. }
  assert (forall j r, j <> k -> tb1 !! j = Some r ->
            Hunt.hunt_number r <> Hunt.hunt_number self) as Hother.
  { intros j r Hjk Hj. destruct (Hback j r Hj) as (r0 & Hr0 & ->).
    destruct (Hu j r0 Hr0) as [Hid|Hn]; [|done].
    exfalso. apply Hjk. subst k. by rewrite <- Hid. }
  intros k1 k2 r1 r2 H1 H2 Hn.
  destruct (decide (k1 = k)) as [->|Hk1]; destruct (decide (k2 = k)) as [->|Hk2];
    [done| | |].
  - rewrite lookup_insert_eq in H1. rewrite lookup_insert_ne in H2 by done.
    injection H1 as <-. exfalso. by apply (Hother k2 r2).
  - rewrite lookup_insert_eq in H2. rewrite lookup_insert_ne in H1 by done.
    injection H2 as <-. exfalso. by apply (Hother k1 r1).
  - rewrite lookup_insert_ne in H1, H2 by done.
    destruct (Hback k1 r1 H1) as (a & Ha & Hna).
    destruct (Hback k2 r2 H2) as (b & Hb & Hnb).
    apply (Hdist k1 k2 a b Ha Hb). congruence.
Qed.

(** X4. A save of a hunt whose number is the number of a hunt stored
    under another key raises [ValidationError] and leaves the table as it
    was; so does a new hunt (no key) with a number in use. *)
Theorem hunt_save_number_in_use self tb (j : nat) (other : Hunt.t) :
  tb !! j = Some other ->
  Some j <> Hunt.id self ->
  Hunt.hunt_number other = Hunt.hunt_number self ->
  Hunt.save clean_fields self tb = (inl ValidationError, tb).
Proof.
  intros Hj Hne Hn. rewrite save_run.
  assert (Hunt.hunt_number_unique self tb = false) as ->.
  { apply not_true_is_false. rewrite hunt_number_unique_true. intros Hall.
    by destruct (Hall j other Hj). }
  by rewrite andb_false_r.
Qed.

(** X5. Saving again the instance that a save gave back changes nothing:
    the second save goes through (the field validation accepting the
    instance with its key) and gives the same instance and table. *)
Theorem hunt_save_again self tb (saved : Hunt.t) tb' :
  Hunt.save clean_fields self tb = (inr saved, tb') ->
  clean_fields saved = true ->
  Hunt.save clean_fields saved tb' = (inr saved, tb').
Proof.
  rewrite save_run.
  destruct (clean_fields self && _ && Hunt.hunt_number_unique self tb) eqn:Hok;
    [|done].
  apply andb_true_iff in Hok as [_ Hu]. rewrite hunt_number_unique_true in Hu.
  cbv zeta.
  set (tb1 := if Hunt.is_current_hunt self then Hunt.clear_current <$> tb else tb).
  set (k := match Hunt.id self with Some k => k | None => next_pk tb1 end).
  intros [= <- <-] Hcf. rewrite save_run, Hcf.
  cbn [pk Hunt.model set_pk Hunt.id Hunt.set_id Hunt.is_current_hunt].
  cbn [mbind option_bind]. rewrite lookup_insert_eq.
  change (Hunt.is_current_hunt (Hunt.set_id (Some k) self))
    with (Hunt.is_current_hunt self).
  change (Hunt.set_id (Some k) (Hunt.set_id (Some k) self))
    with (Hunt.set_id (Some k) self).
  assert (negb (negb (Hunt.is_current_hunt self) && Hunt.is_current_hunt self)
          = true) as -> by (by destruct (Hunt.is_current_hunt self)).
  assert (Hunt.hunt_number_unique (Hunt.set_id (Some k) self)
            (<[k := Hunt.set_id (Some k) self]> tb1) = true) as ->.
  { rewrite hunt_number_unique_true. intros j r Hj.
    destruct (decide (j = k)) as [->|Hjk]; [by left|]. right.
    rewrite lookup_insert_ne in Hj by done. simpl.
    assert (exists r0, tb !! j = Some r0
                       /\ Hunt.hunt_number r = Hunt.hunt_number r0)
      as (r0 & Hr0 & ->).
    { unfold tb1 in Hj. destruct (Hunt.is_current_hunt self).
      - rewrite lookup_fmap in Hj. destruct (tb !! j) as [r0|]; [|done].
        injection Hj as <-. exists r0. split; [done|].
        unfold Hunt.clear_current. by destruct (Hunt.is_current_hunt r0).
      - by exists r. }
    destruct (Hu j r0 Hr0) as [Hid|Hn]; [|done].
    exfalso. apply Hjk. subst k. by rewrite <- Hid. }
  simpl. f_equal.
  unfold tb1. destruct (Hunt.is_current_hunt self) eqn:Hflag.
  - rewrite fmap_insert, insert_insert_eq, <- map_fmap_compose.
    f_equal. apply map_fmap_ext. intros j r _. simpl.
    unfold Hunt.clear_current.
    destruct (Hunt.is_current_hunt r) eqn:E; simpl; [done|by rewrite E].
  - by rewrite insert_insert_eq.
Qed.

(** X6. After a save that went through, the lookup by the key of the
    saved hunt gives that hunt; every other hunt of the table is still
    there, with at most its flag cleared (cleared when the saved hunt
    carries the flag, untouched otherwise). *)
Theorem hunt_save_lookup self tb (saved : Hunt.t) tb' :
  Hunt.save clean_fields self tb = (inr saved, tb') ->
  objects_get_pk (pk saved) tb' = (inr saved, tb')
  /\ forall j r, tb !! j = Some r -> Some j <> pk saved ->
       tb' !! j = Some (if Hunt.is_current_hunt self
                        then Hunt.clear_current r else r).
Proof.
  intros Hsave. apply save_ok in Hsave as (_ & tb1 & k & -> & Hk & -> & ->).
  split.
  - simpl. unfold objects_get_pk. by rewrite lookup_insert_eq.
  - intros j r Hj Hne. simpl in Hne.
    rewrite lookup_insert_ne by congruence.
    destruct (Hunt.is_current_hunt self); [|done].
    by rewrite lookup_fmap, Hj.
Qed.

(** X7. A hunt saved for the first time (no key yet) is stored under a
    key that no hunt had, and the table has one more row. *)
Theorem hunt_save_new self tb (saved : Hunt.t) tb' :
  Hunt.id self = None ->
  Hunt.save clean_fields self tb = (inr saved, tb') ->
  exists k, pk saved = Some k /\ tb !! k = None /\ tb' !! k = Some saved
            /\ size tb' = S (size tb).
Proof.
  intros Hid Hsave.
  apply save_ok in Hsave as (_ & tb1 & k & Htb1 & Hk & -> & ->).
  rewrite Hid in Hk. exists k. split; [done|].
  assert (tb1 !! k = None) as Hfresh by (subst k; apply next_pk_fresh).
  assert (size tb1 = size tb /\ tb !! k = None) as [Hsize Hnone].
  { subst tb1. destruct (Hunt.is_current_hunt self); [|done].
    rewrite map_size_fmap. split; [done|].
    rewrite lookup_fmap in Hfresh. by destruct (tb !! k). }
  split; [done|]. split; [by rewrite lookup_insert_eq|].
  by rewrite map_size_insert_None, Hsize.
Qed.
End HuntSaves.

Lemma hunt_saves_keep_one_current_witness :
  List.length (objects_filter Hunt.is_current_hunt Sample.two_hunts) = 1
  /\ List.length
       (objects_filter Hunt.is_current_hunt
          (Hunt.save_all Sample.clean_fields
             [Sample.hunt2016; Sample.hunt2014_again;
              Hunt.set_is_current_hunt false Sample.current]
             Sample.two_hunts)) = 1.
Proof.
  assert (List.length (objects_filter Hunt.is_current_hunt Sample.two_hunts) = 1)
    as Hone by (vm_compute; reflexivity).
  split; [exact Hone|].
  exact (proj1 (hunt_saves_keep_one_current Sample.clean_fields
                  [Sample.hunt2016; Sample.hunt2014_again;
                   Hunt.set_is_current_hunt false Sample.current]
                  Sample.two_hunts Hone)).
Defined.

Lemma hunt_save_without_flag_keeps_current_witness :
  Hunt.is_current_hunt Sample.hunt2016 = false
  /\ objects_filter Hunt.is_current_hunt
       (Hunt.save Sample.clean_fields Sample.hunt2016 Sample.two_hunts).2
     ≡ₚ objects_filter Hunt.is_current_hunt Sample.two_hunts.
Proof.
  split; [reflexivity|].
  apply (hunt_save_without_flag_keeps_current Sample.clean_fields
           Sample.hunt2016 Sample.two_hunts).
  reflexivity.
Defined.

Lemma hunt_save_keeps_numbers_distinct_witness :
  hunt_numbers_distinct (∅ : gmap nat Hunt.t)
  /\ hunt_numbers_distinct Sample.two_hunts.
Proof.
  assert (hunt_numbers_distinct (∅ : gmap nat Hunt.t)) as Hempty.
  { intros k1 k2 r1 r2 H1. rewrite lookup_empty in H1. discriminate H1. }
  split; [exact Hempty|].
  change Sample.two_hunts
    with (Hunt.save Sample.clean_fields Sample.hunt2015
            (Hunt.save Sample.clean_fields Sample.hunt2014 ∅).2).2.
  apply hunt_save_keeps_numbers_distinct, hunt_save_keeps_numbers_distinct.
  exact Hempty.
Defined.

Lemma hunt_save_number_in_use_witness :
  Sample.two_hunts !! 1 = Some (Hunt.set_is_current_hunt false
                                  (set_pk (Some 1) Sample.hunt2014))
  /\ Hunt.save Sample.clean_fields Sample.hunt2014_again Sample.two_hunts
     = (inl ValidationError, Sample.two_hunts).
Proof.
  assert (Sample.two_hunts !! 1
          = Some (Hunt.set_is_current_hunt false
                    (set_pk (Some 1) Sample.hunt2014))) as Hrow
    by (vm_compute; reflexivity).
  split; [exact Hrow|].
  apply (hunt_save_number_in_use Sample.clean_fields Sample.hunt2014_again
           Sample.two_hunts 1 _ Hrow); [discriminate|reflexivity].
Defined.

Lemma hunt_save_again_witness :
  Hunt.save Sample.clean_fields Sample.hunt2015
    (Hunt.save_all Sample.clean_fields [Sample.hunt2014] ∅)
  = (inr Sample.current, Sample.two_hunts)
  /\ Hunt.save Sample.clean_fields Sample.current Sample.two_hunts
     = (inr Sample.current, Sample.two_hunts).
Proof.
  assert (Hunt.save Sample.clean_fields Sample.hunt2015
            (Hunt.save_all Sample.clean_fields [Sample.hunt2014] ∅)
          = (inr Sample.current, Sample.two_hunts)) as Hsave
    by (vm_compute; reflexivity).
  split; [exact Hsave|].
  apply (hunt_save_again Sample.clean_fields _ _ _ _ Hsave). reflexivity.
Defined.

Lemma hunt_save_lookup_witness :
  Hunt.save Sample.clean_fields Sample.hunt2015
    (Hunt.save_all Sample.clean_fields [Sample.hunt2014] ∅)
  = (inr Sample.current, Sample.two_hunts)
  /\ objects_get_pk (Some 2) Sample.two_hunts
     = (inr Sample.current, Sample.two_hunts).
Proof.
  assert (Hunt.save Sample.clean_fields Sample.hunt2015
            (Hunt.save_all Sample.clean_fields [Sample.hunt2014] ∅)
          = (inr Sample.current, Sample.two_hunts)) as Hsave
    by (vm_compute; reflexivity).
  split; [exact Hsave|].
  exact (proj1 (hunt_save_lookup Sample.clean_fields _ _ _ _ Hsave)).
Defined.

Lemma hunt_save_new_witness :
  Hunt.id Sample.hunt2016 = None
  /\ exists saved tb',
       Hunt.save Sample.clean_fields Sample.hunt2016 Sample.two_hunts
       = (inr saved, tb')
       /\ size tb' = S (size Sample.two_hunts).
Proof.
  split; [reflexivity|].
  assert (Hunt.save Sample.clean_fields Sample.hunt2016 Sample.two_hunts
          = (inr (set_pk (Some 3) Sample.hunt2016),
             <[3 := set_pk (Some 3) Sample.hunt2016]> Sample.two_hunts)) as Hsave
    by (vm_compute; reflexivity).
  eexists _, _. split; [exact Hsave|].
  destruct (hunt_save_new Sample.clean_fields Sample.hunt2016 _ _ _ eq_refl Hsave)
    as (k & _ & _ & _ & Hsize).
  exact Hsize.
Defined.

(** ** Hunt: the derived states, away from the two instants *)

(** X8. With the end not before the start, and at any instant other than
    the start and the end, the hunt is in exactly one of the three
    states: locked before the start, open between start and end, public
    after the end. *)
Theorem hunt_states_partition (self : Hunt.t) (now : Z) :
  (Hunt.start_date self <= Hunt.end_date self)%Z ->
  now <> Hunt.start_date self -> now <> Hunt.end_date self ->
  (Hunt.is_locked now self, Hunt.is_open now now self, Hunt.is_public now self)
  = if (now <? Hunt.start_date self)%Z then (true, false, false)
    else if (now <? Hunt.end_date self)%Z then (false, true, false)
    else (false, false, true).
Proof.
  intros Hle Hs He. unfold Hunt.is_locked, Hunt.is_open, Hunt.is_public.
  rewrite !Z.gtb_ltb.
  destruct (Z.ltb_spec now (Hunt.start_date self));
    destruct (Z.ltb_spec (Hunt.start_date self) now);
    destruct (Z.ltb_spec now (Hunt.end_date self));
    destruct (Z.ltb_spec (Hunt.end_date self) now);
    simpl; try reflexivity; lia.
Qed.

Lemma hunt_states_partition_witness :
  (Hunt.is_locked 350 Sample.hunt2015, Hunt.is_open 350 350 Sample.hunt2015,
   Hunt.is_public 350 Sample.hunt2015) = (false, true, false).
Proof.
  apply (hunt_states_partition Sample.hunt2015 350); simpl; lia.
Defined.

(** X9. An open hunt is neither locked nor public, whatever its dates;
    and with the end not before the start no hunt is locked and public
    at one instant: at no instant is the hunt in two states. *)
Theorem hunt_states_exclusive (self : Hunt.t) (now : Z) :
  (Hunt.start_date self <= Hunt.end_date self)%Z ->
  Hunt.is_locked now self && Hunt.is_open now now self = false
  /\ Hunt.is_open now now self && Hunt.is_public now self = false
  /\ Hunt.is_locked now self && Hunt.is_public now self = false.
Proof.
  intros Hle. unfold Hunt.is_locked, Hunt.is_open, Hunt.is_public.
  rewrite !Z.gtb_ltb.
  destruct (Z.ltb_spec now (Hunt.start_date self));
    destruct (Z.ltb_spec (Hunt.start_date self) now);
    destruct (Z.ltb_spec now (Hunt.end_date self));
    destruct (Z.ltb_spec (Hunt.end_date self) now);
    simpl; repeat split; try reflexivity; lia.
Qed.

Lemma hunt_states_exclusive_witness :
  Hunt.is_locked 300 Sample.hunt2015 && Hunt.is_public 300 Sample.hunt2015
  = false.
Proof.
  destruct (hunt_states_exclusive Sample.hunt2015 300) as (_ & _ & H);
    [simpl; lia | exact H].
Defined.

(** X10. A hunt whose end comes before its start is never open, and at
    every instant between its end and its start it is locked and public
    at once. *)
Theorem hunt_states_backwards (self : Hunt.t) (now : Z) :
  (Hunt.end_date self < Hunt.start_date self)%Z ->
  Hunt.is_open now now self = false
  /\ ((Hunt.end_date self < now < Hunt.start_date self)%Z ->
      Hunt.is_locked now self = true /\ Hunt.is_public now self = true).
Proof.
  intros Hlt. unfold Hunt.is_locked, Hunt.is_open, Hunt.is_public.
  rewrite !Z.gtb_ltb. split.
  - destruct (Z.ltb_spec (Hunt.start_date self) now);
      destruct (Z.ltb_spec now (Hunt.end_date self)); simpl; try reflexivity; lia.
  - intros [H1 H2]. split; apply Z.ltb_lt; lia.
Qed.

Lemma hunt_states_backwards_witness :
  Hunt.is_open 150 150 Sample.backwards = false
  /\ Hunt.is_locked 150 Sample.backwards = true
  /\ Hunt.is_public 150 Sample.backwards = true.
Proof.
  destruct (hunt_states_backwards Sample.backwards 150) as [Hopen Hboth];
    [simpl; lia|].
  split; [exact Hopen|]. apply Hboth. simpl. lia.
Defined.

(** ** Submission, Solve, Person *)

(** X11. A submission that is saved, and at a later time saved again,
    keeps its key: the second save replaces the one row of the
    submission, the table keeps its size, and the row is the one that a
    single save at the time of the second would have written. *)
Theorem submission_save_again
    (now1 now2 : Z) (self : Submission.t) (tb : gmap nat Submission.t) :
  exists (k : nat) (s1 s2 : Submission.t) (tb1 tb2 : gmap nat Submission.t),
    Submission.save now1 self tb = (inr s1, tb1)
    /\ Submission.save now2 s1 tb1 = (inr s2, tb2)
    /\ pk s1 = Some k /\ pk s2 = Some k
    /\ Submission.modified_date s2 = now2
    /\ Submission.submission_time s2 = Submission.submission_time self
    /\ size tb2 = size tb1
    /\ tb2 = <[k := s2]> tb
    /\ s2 = set_pk (Some k) (Submission.set_modified_date now2 self).
Proof.
  set (k := match Submission.id self with Some k => k | None => next_pk tb end).
  set (s1 := set_pk (Some k) (Submission.set_modified_date now1 self)).
  set (s2 := set_pk (Some k) (Submission.set_modified_date now2 self)).
  exists k, s1, s2, (<[k := s1]> tb), (<[k := s2]> (<[k := s1]> tb)).
  repeat split; try done.
  - rewrite !map_size_insert, lookup_insert_eq. simpl.
    destruct (tb !! k); simpl; lia.
  - by rewrite insert_insert_eq.
Qed.




(** X13. In a table with one solve for a team and a puzzle, saving the
    solve of a key again, with the same puzzle and team (and any
    submission), goes through and replaces that row: the unique pair
    does not count the row against itself. *)
Theorem solve_save_own_row
    (tb : gmap nat Solve.t) (k : nat) (r self : Solve.t) :
  Solve.pairs_distinct tb ->
  tb !! k = Some r ->
  Solve.id self = Some k ->
  Solve.puzzle self = Solve.puzzle r ->
  Solve.team self = Solve.team r ->
  Solve.save self tb = (inr self, <[k := self]> tb).
Proof.
  intros Hdist Hk Hid Hp Ht. rewrite solve_save_run.
  assert (Solve.unique_together self tb = true) as ->.
  { apply unique_together_true. intros j r' Hj.
    destruct (decide (j = k)) as [->|Hne]; [left; by rewrite Hid|].
    right. intros [Hp' Ht']. apply Hne.
    apply (Hdist j k r' r Hj Hk); congruence. }
  rewrite Hid. simpl. destruct self as [i p t s]. simpl in *. by subst i.
Qed.

Lemma solve_save_own_row_witness :
  Solve.save (Solve.mk (Some 1) 7 5 12) Sample.solved_once
  = (inr (Solve.mk (Some 1) 7 5 12),
     <[1 := Solve.mk (Some 1) 7 5 12]> Sample.solved_once).
Proof.
  assert (Sample.solved_once = {[ 1 := Solve.mk (Some 1) 7 5 11 ]}) as Htb
    by (vm_compute; reflexivity).
  apply (solve_save_own_row Sample.solved_once 1 (Solve.mk (Some 1) 7 5 11));
    [|rewrite Htb; apply lookup_singleton_eq|reflexivity..].
  intros k1 k2 r1 r2 H1 H2 _ _. rewrite Htb in H1, H2.
  apply lookup_singleton_Some in H1 as [<- _].
  apply lookup_singleton_Some in H2 as [<- _]. reflexivity.
Defined.

Lemma string_length_append (a b : string) :
  String.length (a ++ b) = String.length a + String.length b.
Proof.
  induction a as [|x a IH]; [reflexivity|].
  change (S (String.length (a ++ b)) = S (String.length a + String.length b)).
  by rewrite IH.
Qed.

Lemma string_append_assoc (a b c : string) : (a ++ b) ++ c = a ++ b ++ c.
Proof.
  induction a as [|x a IH]; [reflexivity|].
  change (String x ((a ++ b) ++ c) = String x (a ++ b ++ c)).
  by rewrite IH.
Qed.

(** X14. The text of a person is always the first name, a blank, the
    last name and the e-mail address in parentheses: the test for an
    anonymous user never holds, and ["Anonymous User"] is never the
    text, also when name and address are all empty. *)
Theorem person_unicode_never_anonymous (self : Person.t) :
  Person.__unicode__ self
  = Person.first_name (Person.user self) ++ " "
    ++ Person.last_name (Person.user self)
    ++ " (" ++ Person.email (Person.user self) ++ ")"
  /\ Person.__unicode__ self <> "Anonymous User"
  /\ Person.__unicode__ Sample.nobody = "  ()".
Proof.
  assert (forall a b c : string,
            String.length (a ++ " " ++ b ++ " (" ++ c ++ ")")
            = String.length a + String.length b + String.length c + 4) as Hlen.
  { intros a b c. rewrite !string_length_append. simpl. lia. }
  assert (Person.__unicode__ self
          = Person.first_name (Person.user self) ++ " "
            ++ Person.last_name (Person.user self)
            ++ " (" ++ Person.email (Person.user self) ++ ")") as Hrun.
  { unfold Person.__unicode__, str_eqb. case_bool_decide as Heq; [|done].
    apply (f_equal String.length) in Heq. rewrite Hlen in Heq. simpl in Heq. lia. }
  split; [done|]. split; [|reflexivity].
  rewrite Hrun. intros Heq.
  assert (forall a b : string, String.get (String.length a) (a ++ b)
                               = String.get 0 b) as Hget.
  { intros a b. induction a as [|x a IH]; simpl; [done|exact IH]. }
  set (f := Person.first_name (Person.user self)) in *.
  set (l := Person.last_name (Person.user self)) in *.
  set (e := Person.email (Person.user self)) in *.
  assert (String.get (String.length (f ++ " " ++ l ++ " (" ++ e))
            (f ++ " " ++ l ++ " (" ++ e ++ ")") = Some ")"%char) as Hlast.
  { replace (f ++ " " ++ l ++ " (" ++ e ++ ")")
      with ((f ++ " " ++ l ++ " (" ++ e) ++ ")").
    - by rewrite Hget.
    - by rewrite !string_append_assoc. }
  rewrite Heq in Hlast.
  assert (String.length (f ++ " " ++ l ++ " (" ++ e) = 13) as Hpos.
  { apply (f_equal String.length) in Heq. rewrite Hlen in Heq.
    rewrite !string_length_append. simpl in *. lia. }
  rewrite Hpos in Hlast. discriminate Hlast.
Qed.

(** ** The pages about hunts *)

Section ViewFacts.
Import InfoViews.
Variable team_from_user_hunt : DB -> User -> Hunt.t -> exn + option Team.t.
Variable rnd : nat -> nat.
Implicit Types (request : Request) (db : DB) (curr_hunt : Hunt.t).

(** X15. Every view starts with the lookup of the current hunt: with no
    current hunt all four raise [ObjectDoesNotExist], with two or more
    they raise [MultipleObjectsReturned], and nothing is written; with
    exactly one, [index] and [current_hunt_info] show it. *)
Theorem views_need_one_current request db (now : Z) :
  match objects_filter Hunt.is_current_hunt (hunts db) with
  | [] =>
      index db = (inl ObjectDoesNotExist, db)
      /\ current_hunt_info db = (inl ObjectDoesNotExist, db)
      /\ previous_hunts now db = (inl ObjectDoesNotExist, db)
      /\ registration team_from_user_hunt rnd request db
         = (inl ObjectDoesNotExist, db)
  | [curr_hunt] =>
      index db = (inr (RenderIndex curr_hunt), db)
      /\ current_hunt_info db = (inr (RenderHuntInfo curr_hunt), db)
  | _ :: _ :: _ =>
      index db = (inl MultipleObjectsReturned, db)
      /\ current_hunt_info db = (inl MultipleObjectsReturned, db)
      /\ previous_hunts now db = (inl MultipleObjectsReturned, db)
      /\ registration team_from_user_hunt rnd request db
         = (inl MultipleObjectsReturned, db)
  end.
Proof.
  destruct (objects_filter Hunt.is_current_hunt (hunts db)) as [|h [|]] eqn:E;
    repeat split;
    unfold index, current_hunt_info, previous_hunts, registration, bind,
      on_hunts, zoom, Hunt.get_current, objects_get;
    by rewrite E.
Qed.

End ViewFacts.

Lemma previous_hunts_run (db : InfoViews.DB) (curr_hunt : Hunt.t) (now : Z) :
  objects_filter Hunt.is_current_hunt (InfoViews.hunts db) = [curr_hunt] ->
  InfoViews.previous_hunts now db =
  (inr (InfoViews.RenderPreviousHunts
          (InfoViews.order_by_hunt_number
             (if Hunt.is_public now curr_hunt then rows (InfoViews.hunts db)
              else List.filter (fun h => negb (Hunt.is_current_hunt h))
                               (rows (InfoViews.hunts db))))), db).
Proof.
  intros Hcur.
  unfold InfoViews.previous_hunts, bind, InfoViews.on_hunts, zoom, Hunt.get_current, objects_get.
  rewrite Hcur. by destruct (Hunt.is_public now curr_hunt).
Qed.

(** X16. With one current hunt, [InfoViews.previous_hunts] lists hunts in the
    order of their numbers, each at most once; the listed hunts are all
    the hunts of the table when the current hunt is public, and the
    hunts that are not current otherwise. *)
Theorem previous_hunts_sorted (db : InfoViews.DB) (curr_hunt : Hunt.t) (now : Z) :
  objects_filter Hunt.is_current_hunt (InfoViews.hunts db) = [curr_hunt] ->
  exists l,
    InfoViews.previous_hunts now db = (inr (InfoViews.RenderPreviousHunts l), db)
    /\ Sorted InfoViews.by_hunt_number l
    /\ NoDup l
    /\ forall h, h ∈ l <->
         h ∈ rows (InfoViews.hunts db)
         /\ (Hunt.is_public now curr_hunt = true
             \/ Hunt.is_current_hunt h = false).
Proof.
  intros Hcur. eexists. split; [by apply previous_hunts_run|].
  assert (Total InfoViews.by_hunt_number) as Htotal.
  { intros h1 h2. unfold InfoViews.by_hunt_number. lia. }
  split; [apply Sorted_merge_sort, _|].
  unfold InfoViews.order_by_hunt_number. split.
  - rewrite merge_sort_Permutation.
    destruct (Hunt.is_public now curr_hunt); [apply NoDup_rows|].
    apply NoDup_ListNoDup, List.NoDup_filter, NoDup_ListNoDup, NoDup_rows.
  - intros h. rewrite merge_sort_Permutation.
    destruct (Hunt.is_public now curr_hunt).
    + split; [intros ?; split; [done|by left]|by intros [? _]].
    + rewrite list_elem_of_In, filter_In, <- list_elem_of_In, negb_true_iff.
      split; [intros [? ?]; split; [done|by right]|].
      intros [? [?|?]]; [discriminate|done].
Qed.

(** X17. With one current hunt, [InfoViews.previous_hunts] lists the current hunt
    exactly when it is public: then it lists as many hunts as the table
    has, and one fewer otherwise. *)
Theorem previous_hunts_current (db : InfoViews.DB) (curr_hunt : Hunt.t) (now : Z) :
  objects_filter Hunt.is_current_hunt (InfoViews.hunts db) = [curr_hunt] ->
  exists l,
    InfoViews.previous_hunts now db = (inr (InfoViews.RenderPreviousHunts l), db)
    /\ (curr_hunt ∈ l <-> Hunt.is_public now curr_hunt = true)
    /\ List.length l
       = if Hunt.is_public now curr_hunt then size (InfoViews.hunts db)
         else size (InfoViews.hunts db) - 1.
Proof.
  intros Hcur. eexists. split; [by apply previous_hunts_run|].
  pose proof (objects_filter_one_row _ _ _ Hcur) as (Hflag & k & r & Hr & Hk).
  assert (List.length (rows (InfoViews.hunts db)) = size (InfoViews.hunts db)) as Hrows.
  { unfold rows. by rewrite length_fmap, length_map_to_list. }
  unfold InfoViews.order_by_hunt_number. split.
  - rewrite merge_sort_Permutation.
    destruct (Hunt.is_public now curr_hunt).
    + split; [done|]. intros _. apply elem_of_rows. eauto.
    + split; [|done].
      rewrite list_elem_of_In, filter_In, negb_true_iff. intros [_ ?]. congruence.
  - rewrite merge_sort_Permutation.
    destruct (Hunt.is_public now curr_hunt); [done|].
    pose proof (List.filter_length Hunt.is_current_hunt
                  (rows (InfoViews.hunts db))) as Hlen.
    unfold objects_filter in Hcur. rewrite Hcur in Hlen. simpl in Hlen. lia.
Qed.

Lemma previous_hunts_sorted_witness :
  objects_filter Hunt.is_current_hunt (InfoViews.hunts Sample.db0) = [Sample.current]
  /\ exists l,
       InfoViews.previous_hunts 350 Sample.db0
       = (inr (InfoViews.RenderPreviousHunts l), Sample.db0)
       /\ Sorted InfoViews.by_hunt_number l.
Proof.
  assert (objects_filter Hunt.is_current_hunt (InfoViews.hunts Sample.db0)
          = [Sample.current]) as Hcur by (vm_compute; reflexivity).
  split; [exact Hcur|].
  destruct (previous_hunts_sorted Sample.db0 Sample.current 350 Hcur)
    as (l & Hrun & Hsorted & _).
  exists l. split; [exact Hrun | exact Hsorted].
Defined.

Lemma previous_hunts_current_witness :
  InfoViews.previous_hunts 350 Sample.db0
  = (inr (InfoViews.RenderPreviousHunts
            [Hunt.set_is_current_hunt false (set_pk (Some 1) Sample.hunt2014)]),
     Sample.db0)
  /\ InfoViews.previous_hunts 450 Sample.db0
     = (inr (InfoViews.RenderPreviousHunts
               [Hunt.set_is_current_hunt false (set_pk (Some 1) Sample.hunt2014);
                Sample.current]),
        Sample.db0)
  /\ exists l,
       InfoViews.previous_hunts 350 Sample.db0
       = (inr (InfoViews.RenderPreviousHunts l), Sample.db0)
       /\ List.length l = 1.
Proof.
  split; [vm_compute; reflexivity|]. split; [vm_compute; reflexivity|].
  destruct (previous_hunts_current Sample.db0 Sample.current 350)
    as (l & Hrun & _ & Hlen); [vm_compute; reflexivity|].
  exists l. split; [exact Hrun | exact Hlen].
Defined.

(** ** Registration: what a request may write *)

Section RegistrationWrites.
Import InfoViews.
Variable team_from_user_hunt : DB -> User -> Hunt.t -> exn + option Team.t.
Variable rnd : nat -> nat.
Implicit Types (request : Request) (db : DB) (curr_hunt : Hunt.t).

(** The state after the view is the state after its branch. *)
Lemma registration_state request db :
  (registration team_from_user_hunt rnd request db).2 = db
  \/ exists curr_hunt team0,
       objects_filter Hunt.is_current_hunt (hunts db) = [curr_hunt]
       /\ ((registration team_from_user_hunt rnd request db).2
            = (new_team rnd request curr_hunt team0 db).2
           \/ (registration team_from_user_hunt rnd request db).2
              = (join_team request curr_hunt db).2
           \/ (registration team_from_user_hunt rnd request db).2
              = (leave_team request team0 db).2).
Proof.
  assert (forall res, res = registration team_from_user_hunt rnd request db ->
            res.2 = db
            \/ exists curr_hunt team0,
                 objects_filter Hunt.is_current_hunt (hunts db) = [curr_hunt]
                 /\ (res.2 = (new_team rnd request curr_hunt team0 db).2
                     \/ res.2 = (join_team request curr_hunt db).2
                     \/ res.2 = (leave_team request team0 db).2)) as Hcases.
  { intros res.
    unfold registration, bind at 1, on_hunts, zoom, Hunt.get_current, objects_get.
    destruct (objects_filter Hunt.is_current_hunt (hunts db))
      as [|curr_hunt [|]] eqn:Hcur;
      [intros ->; by left| |intros ->; by left].
    unfold bind at 1.
    destruct (team_from_user_hunt db (user request) curr_hunt) as [e|team0];
      [intros ->; by left|].
    unfold bind at 1.
    assert (forall (m : M DB flow),
              (match m db with
               | (inr a, s') => render_page curr_hunt a s'
               | (inl e, s') => (inl e, s')
               end).2 = (m db).2) as Hfin.
    { intros m. destruct (m db) as [[e|b] s']; [done|]. by rewrite render_page_run. }
    intros ->. rewrite Hfin.
    destruct (str_eqb (method request) "POST" && _); [|by left].
    destruct (bool_decide (_ = Some "new_team")).
    { right. exists curr_hunt, team0. split; [done|]. by left. }
    destruct (bool_decide (_ = Some "join_team")).
    { right. exists curr_hunt, team0. split; [done|]. right. by left. }
    destruct (bool_decide (_ = Some "leave_team")).
    { right. exists curr_hunt, team0. split; [done|]. right. by right. }
    by left. }
  exact (Hcases _ eq_refl).
Qed.

Lemma join_team_cases request db curr_hunt :
  objects_filter Hunt.is_current_hunt (hunts db) = [curr_hunt] ->
  (join_team request curr_hunt db).2 = db
  \/ exists (team : Team.t) (k p : nat),
       objects_filter
         (fun tm => in_team_set curr_hunt tm
                    && exact (POST request !! "team_name") tm)
         (teams db) = [team]
       /\ pk team = Some k
       /\ person (user request) = Some p
       /\ (Z.of_nat (size (person_set team db)) < Hunt.team_size curr_hunt)%Z
       /\ (join_team request curr_hunt db).2
          = set_person_teams ({[ (p, k) ]} ∪ person_teams db) db.
Proof.
  intros Hcur.
  destruct (objects_filter
              (fun tm => in_team_set curr_hunt tm
                         && exact (POST request !! "team_name") tm)
              (teams db)) as [|team [|]] eqn:Hteam.
  - left. unfold join_team, bind at 1, on_teams, zoom, objects_get.
    rewrite Hteam. simpl. by destruct db.
  - destruct (join_team_run request db curr_hunt team Hcur Hteam) as (k & Hk & ->).
    destruct (Z.geb_spec (Z.of_nat (size (person_set team db)))
                (Hunt.team_size curr_hunt)) as [|Hlt]; [by left|].
    destruct (POST request !! "join_code") as [code|]; [|by left].
    destruct (caseless_eq (Team.join_code team) code); [|by left].
    destruct (person (user request)) as [p|] eqn:Hp; [|by left].
    right. by exists team, k, p.
  - left. unfold join_team, bind at 1, on_teams, zoom, objects_get.
    rewrite Hteam. simpl. by destruct db.
Qed.

Lemma leave_team_cases request (team0 : option Team.t) db :
  (leave_team request team0 db).2 = db
  \/ exists (team : Team.t) (p k : nat),
       team0 = Some team /\ pk team = Some k
       /\ person (user request) = Some p
       /\ (leave_team request team0 db).2
          = set_person_teams (person_teams db ∖ {[ (p, k) ]}) db.
Proof.
  unfold leave_team, bind, teams_remove.
  destruct (person (user request)) as [p|]; [|by left].
  destruct team0 as [team|]; simpl; [|by left].
  destruct (Team.id team) as [k|] eqn:Hk; [|by left].
  right. exists team, p, k. simpl. by rewrite Hk.
Qed.

Lemma new_team_cases request db curr_hunt (team0 : option Team.t) :
  (new_team rnd request curr_hunt team0 db).2 = db
  \/ exists (name loc : string) (h : nat),
       let k := next_pk (teams db) in
       let team := Team.mk (Some k) name h loc (random_join_code rnd) false in
       pk curr_hunt = Some h
       /\ POST request !! "team_name" = Some name
       /\ name <> ""
       /\ POST request !! "need_room" = Some loc
       /\ objects_filter
            (fun tm => in_team_set curr_hunt tm && iexact (Some name) tm)
            (teams db) = []
       /\ ((person (user request) = None
            /\ new_team rnd request curr_hunt team0 db
               = (inl AttributeError, set_teams (<[k := team]> (teams db)) db))
           \/ exists p,
                person (user request) = Some p
                /\ new_team rnd request curr_hunt team0 db
                   = (inr (Next (Some team)),
                      mkDB (hunts db) (<[k := team]> (teams db))
                           ({[ (p, k) ]} ∪ person_teams db))).
Proof.
  destruct (POST request !! "team_name") as [name|] eqn:Hname.
  - rewrite (new_team_run rnd request db curr_hunt team0 name Hname).
    destruct (bool_decide_reflect
                (objects_filter
                   (fun tm => in_team_set curr_hunt tm && iexact (Some name) tm)
                   (teams db) = [])) as [Hnone|]; [|by left].
    destruct (bool_decide_reflect (name = "")) as [|Hblank]; [by left|].
    unfold bind at 1, on_teams, zoom, Team_objects_create.
    destruct (pk curr_hunt) as [h|] eqn:Hpk; [|left; simpl; by destruct db].
    destruct (POST request !! "need_room") as [loc|] eqn:Hloc;
      [|left; simpl; by destruct db].
    right. exists name, loc, h. cbv zeta.
    split; [done|]. split; [done|]. split; [done|]. split; [done|].
    split; [done|].
    unfold model_save, bind, teams_add. simpl.
    destruct (person (user request)) as [p|]; [right; by exists p|by left].
  - left. unfold new_team, bind at 1, gets. rewrite Hname. simpl.
    rewrite (proj2 (objects_filter_nil_iff _ (teams db)))
      by (intros k r _; apply andb_false_r).
    simpl. by destruct db.
Qed.

(** X18. Whatever the request, [registration] leaves the hunt table as
    it is, keeps every team of the team table as it is (it may add one),
    and keeps the names of the teams of a hunt distinct up to letter
    case. *)
Theorem registration_keeps_tables request db :
  hunts (registration team_from_user_hunt rnd request db).2 = hunts db
  /\ teams db ⊆ teams (registration team_from_user_hunt rnd request db).2
  /\ (names_distinct db ->
      names_distinct (registration team_from_user_hunt rnd request db).2).
Proof.
  split; [|split; [|apply registration_names_distinct]].
  - destruct (registration_state request db)
      as [->|(curr_hunt & team0 & Hcur & [->|[->| ->]])]; [done| | |].
    + destruct (new_team_cases request db curr_hunt team0)
        as [->|(name & loc & h & _ & _ & _ & _ & _ & [[_ ->]|(p & _ & ->)])];
        done.
    + destruct (join_team_cases request db curr_hunt Hcur)
        as [->|(team & k & p & _ & _ & _ & _ & ->)]; done.
    + destruct (leave_team_cases request team0 db)
        as [->|(team & p & k & _ & _ & _ & ->)]; done.
  - destruct (registration_teams team_from_user_hunt rnd request db)
      as [->|(name & loc & h & curr_hunt & _ & _ & ->)]; [done|].
    apply insert_subseteq, next_pk_fresh.
Qed.

(** X19. Every row of the join table naming a team of the team table,
    this is still so after [registration], whatever the request. *)
Theorem registration_keeps_memberships_valid request db :
  memberships_valid db ->
  memberships_valid (registration team_from_user_hunt rnd request db).2.
Proof.
  intros Hvalid. unfold memberships_valid.
  destruct (registration_state request db)
    as [->|(curr_hunt & team0 & Hcur & [->|[->| ->]])]; [done| | |].
  - destruct (new_team_cases request db curr_hunt team0)
      as [->|(name & loc & h & _ & _ & _ & _ & _ & [[_ ->]|(p & _ & ->)])];
      [done| |]; simpl; intros q j Hin.
    + destruct (decide (j = next_pk (teams db))) as [->|Hne].
      * rewrite lookup_insert_eq. eauto.
      * rewrite lookup_insert_ne by done. by apply (Hvalid q).
    + destruct (decide (j = next_pk (teams db))) as [->|Hne].
      * rewrite lookup_insert_eq. eauto.
      * rewrite lookup_insert_ne by done. apply (Hvalid q).
        apply elem_of_union in Hin as [Hin|Hin]; [|done].
        apply elem_of_singleton in Hin. congruence.
  - destruct (join_team_cases request db curr_hunt Hcur)
      as [->|(team & k & p & Hteam & Hk & _ & _ & ->)]; [done|].
    simpl. intros q j Hin.
    apply elem_of_union in Hin as [Hin|Hin]; [|by apply (Hvalid q)].
    apply elem_of_singleton in Hin. injection Hin as -> ->.
    apply objects_filter_one_row in Hteam as (_ & k' & r & Hr & ->).
    simpl in Hk. injection Hk as <-. eauto.
  - destruct (leave_team_cases request team0 db)
      as [->|(team & p & k & _ & _ & _ & ->)]; [done|].
    simpl. intros q j Hin. apply (Hvalid q).
    by apply elem_of_difference in Hin as [Hin _].
Qed.

(** X20. [registration] changes the memberships of the person of the
    requesting user only: whatever the request, every other person is a
    member of the same teams before and after. *)
Theorem registration_only_own_memberships request db (q j : nat) :
  person (user request) <> Some q ->
  (q, j) ∈ person_teams (registration team_from_user_hunt rnd request db).2
  <-> (q, j) ∈ person_teams db.
Proof.
  intros Hother.
  destruct (registration_state request db)
    as [->|(curr_hunt & team0 & Hcur & [->|[->| ->]])]; [done| | |].
  - destruct (new_team_cases request db curr_hunt team0)
      as [->|(name & loc & h & _ & _ & _ & _ & _ & [[_ ->]|(p & Hp & ->)])];
      [done|done|].
    simpl. rewrite elem_of_union, elem_of_singleton.
    split; [intros [[= -> ->]|?]; [congruence|done]|by right].
  - destruct (join_team_cases request db curr_hunt Hcur)
      as [->|(team & k & p & _ & _ & Hp & _ & ->)]; [done|].
    simpl. rewrite elem_of_union, elem_of_singleton.
    split; [intros [[= -> ->]|?]; [congruence|done]|by right].
  - destruct (leave_team_cases request team0 db)
      as [->|(team & p & k & _ & _ & Hp & ->)]; [done|].
    simpl. rewrite elem_of_difference, elem_of_singleton.
    split; [by intros [? _]|]. intros Hin. split; [done|].
    intros [= -> ->]. congruence.
Qed.

Lemma person_set_add_other (tm : Team.t) db (p k j : nat) :
  pk tm = Some j -> j <> k ->
  person_set tm (set_person_teams ({[ (p, k) ]} ∪ person_teams db) db)
  = person_set tm db.
Proof.
  intros Hj Hne. unfold person_set, set_person_teams. cbn [person_teams].
  rewrite Hj.
  apply set_eq. intros [q i].
  rewrite !elem_of_filter, elem_of_union, elem_of_singleton. simpl.
  split; [|intros [? ?]; split; [done|by right]].
  intros [[= ->] [[= -> ->]|?]]; [done|by split].
Qed.

Lemma person_set_add_size (tm : Team.t) db (x : nat * nat) :
  size (person_set tm (set_person_teams ({[ x ]} ∪ person_teams db) db))
  <= S (size (person_set tm db)).
Proof.
  assert (person_set tm (set_person_teams ({[ x ]} ∪ person_teams db) db)
          ⊆ {[ x ]} ∪ person_set tm db) as Hsub.
  { unfold person_set, set_person_teams. cbn [person_teams]. intros y.
    rewrite elem_of_filter, !elem_of_union, elem_of_filter.
    intros [Hy [?|?]]; [by left|by right]. }
  apply subseteq_size in Hsub. rewrite size_union_alt, size_singleton in Hsub.
  assert (size (person_set tm db ∖ {[ x ]}) <= size (person_set tm db)) as Hle.
  { apply subseteq_size. intros y Hy. by apply elem_of_difference in Hy as [Hy _]. }
  lia.
Qed.

Lemma person_set_fresh (tm : Team.t) db (k : nat) :
  memberships_valid db -> teams db !! k = None -> pk tm = Some k ->
  person_set tm db = ∅.
Proof.
  intros Hvalid Hk Hpk. unfold person_set. rewrite Hpk.
  apply set_eq. intros [q j]. rewrite elem_of_filter. simpl.
  split; [|by intros ?%not_elem_of_empty].
  intros [[= ->] Hin]. apply Hvalid in Hin as [r Hr]. congruence.
Qed.

(** X21. In a current hunt with room for at least one member per team,
    and with a valid join table, no team of the hunt having more members
    than [team_size], none has after [registration], whatever the
    request. *)
Theorem registration_keeps_capacity request db curr_hunt :
  objects_filter Hunt.is_current_hunt (hunts db) = [curr_hunt] ->
  (1 <= Hunt.team_size curr_hunt)%Z ->
  memberships_valid db ->
  within_capacity curr_hunt db ->
  within_capacity curr_hunt (registration team_from_user_hunt rnd request db).2.
Proof.
  intros Hcur Hroom Hvalid Hcap.
  assert (forall (tm : Team.t) tb, person_set tm (set_teams tb db) = person_set tm db)
    as Hteams by done.
  assert (forall (tm : Team.t) tb s,
            person_set tm (mkDB (hunts db) tb s)
            = person_set tm (set_person_teams s db)) as Hboth by done.
  assert (forall j r, pk (set_pk (Some j) r : Team.t) = Some j) as Hpk by done.
  destruct (registration_state request db)
    as [->|(curr' & team0 & Hcur' & Hbranch)]; [done|].
  assert (curr' = curr_hunt) as -> by congruence.
  destruct Hbranch as [->|[->| ->]].
  - destruct (new_team_cases request db curr_hunt team0)
      as [->|(name & loc & h & _ & _ & _ & _ & _ & [[_ ->]|(p & _ & ->)])];
      [done| |]; intros j r Hj Hin; cbn [snd teams set_teams] in *.
    + rewrite Hteams.
      destruct (decide (j = next_pk (teams db))) as [->|Hne].
      * rewrite (person_set_fresh _ db (next_pk (teams db)) Hvalid
                   (next_pk_fresh _) (Hpk _ _)).
        rewrite size_empty. lia.
      * rewrite lookup_insert_ne in Hj by done. by apply Hcap.
    + rewrite Hboth.
      destruct (decide (j = next_pk (teams db))) as [->|Hne].
      * pose proof (person_set_add_size (set_pk (Some (next_pk (teams db))) r)
                      db (p, next_pk (teams db))) as Hadd.
        rewrite (person_set_fresh _ db (next_pk (teams db)) Hvalid
                   (next_pk_fresh _) (Hpk _ _)) in Hadd.
        rewrite size_empty in Hadd. lia.
      * rewrite lookup_insert_ne in Hj by done.
        rewrite (person_set_add_other _ db p (next_pk (teams db)) j (Hpk _ _) Hne).
        by apply Hcap.
  - destruct (join_team_cases request db curr_hunt Hcur)
      as [->|(team & k & p & Hteam & Hk & _ & Hlt & ->)]; [done|].
    intros j r Hj Hin. cbn [teams set_person_teams] in Hj.
    specialize (Hcap j r Hj Hin).
    destruct (decide (j = k)) as [->|Hne].
    + pose proof (person_set_add_size (set_pk (Some k) r) db (p, k)) as Hadd.
      assert (person_set team db = person_set (set_pk (Some k) r) db) as Hsame.
      { unfold person_set. by rewrite Hk, Hpk. }
      rewrite Hsame in Hlt. lia.
    + rewrite (person_set_add_other _ db p k j (Hpk _ _) Hne). done.
  - destruct (leave_team_cases request team0 db)
      as [->|(team & p & k & _ & _ & _ & ->)]; [done|].
    intros j r Hj Hin. cbn [teams set_person_teams] in Hj.
    specialize (Hcap j r Hj Hin).
    assert (size (person_set (set_pk (Some j) r)
                    (set_person_teams (person_teams db ∖ {[ (p, k) ]}) db))
            <= size (person_set (set_pk (Some j) r) db)) as Hle.
    { apply subseteq_size. unfold person_set, set_person_teams.
      cbn [person_teams]. intros y Hy.
      apply elem_of_filter in Hy as [Hy1 Hy2]. apply elem_of_filter.
      split; [done|]. by apply elem_of_difference in Hy2 as [Hy2 _]. }
    lia.
Qed.

(** ** Registration: requests that take no branch, blank names, leaving *)

(** X22. A request that is not a POST, or whose [form_type] is missing
    or is none of [new_team], [join_team], [leave_team], writes nothing
    and gets the page: the team of the user when there is one, the teams
    of the current hunt otherwise. *)
Theorem registration_read_only request db curr_hunt (team0 : option Team.t) :
  objects_filter Hunt.is_current_hunt (hunts db) = [curr_hunt] ->
  team_from_user_hunt db (user request) curr_hunt = inr team0 ->
  method request <> "POST"
  \/ (POST request !! "form_type" <> Some "new_team"
      /\ POST request !! "form_type" <> Some "join_team"
      /\ POST request !! "form_type" <> Some "leave_team") ->
  registration team_from_user_hunt rnd request db
  = (inr match team0 with
         | Some team => RenderRegisteredTeam team
         | None => RenderTeams (objects_filter (in_team_set curr_hunt) (teams db))
         end, db).
Proof.
  intros Hcur Htf Hother.
  unfold registration, bind, on_hunts, zoom, Hunt.get_current, objects_get.
  rewrite Hcur, Htf.
  assert ((if str_eqb (method request) "POST"
              && bool_decide (is_Some (POST request !! "form_type"))
           then
             if bool_decide (POST request !! "form_type" = Some "new_team")
             then new_team rnd request curr_hunt team0
             else if bool_decide (POST request !! "form_type" = Some "join_team")
                  then join_team request curr_hunt
                  else if bool_decide
                            (POST request !! "form_type" = Some "leave_team")
                       then leave_team request team0
                       else ret (Next team0)
           else ret (Next team0)) = ret (Next team0)) as ->.
  { destruct Hother as [Hm|(H1 & H2 & H3)].
    - unfold str_eqb. by rewrite (bool_decide_eq_false_2 _ Hm).
    - rewrite (bool_decide_eq_false_2 _ H1), (bool_decide_eq_false_2 _ H2),
        (bool_decide_eq_false_2 _ H3). by destruct (_ && _). }
  by destruct team0.
Qed.

Lemma lower_empty (s : string) : lower s = lower "" -> s = "".
Proof. by destruct s. Qed.

(** X23. A request to create a team with an empty name, no team of the
    current hunt having an empty name, writes nothing and is not
    answered with a failure: it gets the page, as a request that asks
    for nothing. *)
Theorem registration_blank_name request db curr_hunt (team0 : option Team.t) :
  objects_filter Hunt.is_current_hunt (hunts db) = [curr_hunt] ->
  team_from_user_hunt db (user request) curr_hunt = inr team0 ->
  method request = "POST" ->
  POST request !! "form_type" = Some "new_team" ->
  POST request !! "team_name" = Some "" ->
  (forall k existing,
      teams db !! k = Some existing ->
      Some (Team.hunt existing) = pk curr_hunt ->
      Team.team_name existing <> "") ->
  registration team_from_user_hunt rnd request db
  = (inr match team0 with
         | Some team => RenderRegisteredTeam team
         | None => RenderTeams (objects_filter (in_team_set curr_hunt) (teams db))
         end, db).
Proof.
  intros Hcur Htf Hm Hform Hname Hnamed.
  rewrite (registration_new_team team_from_user_hunt rnd request db curr_hunt
             team0 Hcur Htf Hm Hform).
  rewrite (new_team_run rnd request db curr_hunt team0 "" Hname).
  rewrite bool_decide_eq_true_2.
  - simpl. by destruct team0.
  - apply objects_filter_nil_iff. intros k r Hk. simpl.
    apply andb_false_iff.
    destruct (decide (Some (Team.hunt r) = pk curr_hunt)) as [Hin|Hout].
    + right. apply bool_decide_eq_false_2. intros Hlow.
      apply lower_empty in Hlow. by apply (Hnamed k r).
    + left. by apply bool_decide_eq_false_2.
Qed.

(** X24. A request to leave removes the membership of the person in the
    team that [team_from_user_hunt] gave, with no test of capacity or of
    a join code, and changes nothing else; the page it gets still shows
    that team as the team of the user. *)
Theorem registration_leave_team request db curr_hunt (team : Team.t) (k p : nat) :
  objects_filter Hunt.is_current_hunt (hunts db) = [curr_hunt] ->
  team_from_user_hunt db (user request) curr_hunt = inr (Some team) ->
  method request = "POST" ->
  POST request !! "form_type" = Some "leave_team" ->
  pk team = Some k ->
  person (user request) = Some p ->
  registration team_from_user_hunt rnd request db
  = (inr (RenderRegisteredTeam team),
     set_person_teams (person_teams db ∖ {[ (p, k) ]}) db)
  /\ ((p, k) ∉ person_set team
                 (registration team_from_user_hunt rnd request db).2)
  /\ forall x, x <> (p, k) ->
       (x ∈ person_teams (registration team_from_user_hunt rnd request db).2
        <-> x ∈ person_teams db).
Proof.
  intros Hcur Htf Hm Hform Hk Hp.
  assert (registration team_from_user_hunt rnd request db
          = (inr (RenderRegisteredTeam team),
             set_person_teams (person_teams db ∖ {[ (p, k) ]}) db)) as Hrun.
  { unfold registration, bind at 1 2, on_hunts, zoom, Hunt.get_current, objects_get.
    rewrite Hcur, Htf, Hm, Hform. simpl.
    unfold bind, leave_team, bind, teams_remove. rewrite Hp. simpl.
    simpl in Hk. by rewrite Hk. }
  rewrite Hrun. split; [done|]. simpl. split.
  - unfold person_set. rewrite elem_of_filter. simpl. intros [_ Hin].
    apply elem_of_difference in Hin as [_ Hin]. apply Hin. by apply elem_of_singleton.
  - intros x Hx. rewrite elem_of_difference, elem_of_singleton. tauto.
Qed.

(** ** Registration: creating and joining *)

Lemma caseless_none_found curr_hunt (name : string) (tb : gmap nat Team.t) :
  (forall k existing,
      tb !! k = Some existing ->
      Some (Team.hunt existing) = pk curr_hunt ->
      caseless_eq (Team.team_name existing) name = false) ->
  objects_filter (fun tm => in_team_set curr_hunt tm && iexact (Some name) tm) tb
  = [].
Proof.
  intros Hnodup.
  destruct (decide (objects_filter
                      (fun tm => in_team_set curr_hunt tm && iexact (Some name) tm)
                      tb = [])) as [|Hne]; [done|]. exfalso.
  apply iexact_found in Hne as (k & existing & Hk & Hh & Hn).
  rewrite (Hnodup k existing Hk Hh) in Hn. discriminate.
Qed.

(** The branch [new_team] when it comes to create the team. *)
Lemma new_team_create_run request db curr_hunt (team0 : option Team.t)
    (name loc : string) (h : nat) :
  POST request !! "team_name" = Some name ->
  objects_filter (fun tm => in_team_set curr_hunt tm && iexact (Some name) tm)
                 (teams db) = [] ->
  name <> "" ->
  POST request !! "need_room" = Some loc ->
  pk curr_hunt = Some h ->
  let k := next_pk (teams db) in
  let team := Team.mk (Some k) name h loc (random_join_code rnd) false in
  new_team rnd request curr_hunt team0 db =
  match person (user request) with
  | Some p => (inr (Next (Some team)),
               mkDB (hunts db) (<[k := team]> (teams db))
                    ({[ (p, k) ]} ∪ person_teams db))
  | None => (inl AttributeError, set_teams (<[k := team]> (teams db)) db)
  end.
Proof.
  intros Hname Hnone Hblank Hloc Hpk k team.
  rewrite (new_team_run rnd request db curr_hunt team0 name Hname).
  rewrite (bool_decide_eq_true_2 _ Hnone), (bool_decide_eq_false_2 _ Hblank).
  unfold bind, on_teams, zoom, Team_objects_create.
  rewrite Hloc, Hpk. unfold model_save, teams_add. simpl.
  by destruct (person (user request)).
Qed.

(** X25. The creation of a team is not undone when the adding of its
    first member fails: for a user without a person, a request that
    passes the tests for the name leaves the new team in the team table,
    with no member, and ends in [AttributeError]. *)
Theorem registration_new_team_no_person request db curr_hunt
    (team0 : option Team.t) (name loc : string) :
  objects_filter Hunt.is_current_hunt (hunts db) = [curr_hunt] ->
  team_from_user_hunt db (user request) curr_hunt = inr team0 ->
  method request = "POST" ->
  POST request !! "form_type" = Some "new_team" ->
  POST request !! "team_name" = Some name ->
  (forall k existing,
      teams db !! k = Some existing ->
      Some (Team.hunt existing) = pk curr_hunt ->
      caseless_eq (Team.team_name existing) name = false) ->
  name <> "" ->
  POST request !! "need_room" = Some loc ->
  person (user request) = None ->
  memberships_valid db ->
  exists (k h : nat) (team : Team.t),
    teams db !! k = None
    /\ team = Team.mk (Some k) name h loc (random_join_code rnd) false
    /\ registration team_from_user_hunt rnd request db
       = (inl AttributeError, set_teams (<[k := team]> (teams db)) db)
    /\ teams (registration team_from_user_hunt rnd request db).2 !! k = Some team
    /\ person_set team (registration team_from_user_hunt rnd request db).2 = ∅.
Proof.
  intros Hcur Htf Hm Hform Hname Hnodup Hblank Hloc Hp Hvalid.
  pose proof (objects_filter_one_row _ _ _ Hcur) as (_ & h & row & Hrow & Hcurr).
  assert (pk curr_hunt = Some h) as Hpk by (by rewrite Hcurr).
  exists (next_pk (teams db)), h,
    (Team.mk (Some (next_pk (teams db))) name h loc (random_join_code rnd) false).
  split; [apply next_pk_fresh|]. split; [done|].
  rewrite (registration_new_team team_from_user_hunt rnd request db curr_hunt
             team0 Hcur Htf Hm Hform).
  rewrite (new_team_create_run request db curr_hunt team0 name loc h Hname
             (caseless_none_found _ _ _ Hnodup) Hblank Hloc Hpk).
  rewrite Hp. split; [done|]. cbn [snd]. split.
  - cbn [teams set_teams]. by rewrite lookup_insert_eq.
  - by apply (person_set_fresh _ db (next_pk (teams db)) Hvalid (next_pk_fresh _)).
Qed.

(** X26. A member of a team that is not full who sends the request to
    join it again, with the join code, is shown the team and nothing is
    written: joining twice is joining once. *)
Theorem registration_join_again request db curr_hunt (team0 : option Team.t)
    (team : Team.t) (code : string) (p k : nat) :
  objects_filter Hunt.is_current_hunt (hunts db) = [curr_hunt] ->
  team_from_user_hunt db (user request) curr_hunt = inr team0 ->
  method request = "POST" ->
  POST request !! "form_type" = Some "join_team" ->
  objects_filter
    (fun tm => in_team_set curr_hunt tm && exact (POST request !! "team_name") tm)
    (teams db) = [team] ->
  POST request !! "join_code" = Some code ->
  caseless_eq (Team.join_code team) code = true ->
  person (user request) = Some p ->
  pk team = Some k ->
  (p, k) ∈ person_teams db ->
  (Z.of_nat (size (person_set team db)) < Hunt.team_size curr_hunt)%Z ->
  registration team_from_user_hunt rnd request db
  = (inr (RenderRegisteredTeam team), db).
Proof.
  intros Hcur Htf Hm Hform Hteam Hcode Hmatch Hp Hk Hin Hlt.
  destruct (join_team_run request db curr_hunt team Hcur Hteam) as (k' & Hk' & Hrun).
  assert (k' = k) as -> by congruence.
  rewrite (registration_join_team team_from_user_hunt rnd request db curr_hunt
             team0 Hcur Htf Hm Hform).
  rewrite Hrun, Hcode, Hmatch, Hp.
  destruct (Z.geb_spec (Z.of_nat (size (person_set team db)))
              (Hunt.team_size curr_hunt)) as [|_]; [lia|].
  simpl. f_equal. unfold set_person_teams.
  replace ({[ (p, k) ]} ∪ person_teams db) with (person_teams db).
  - by destruct db.
  - apply set_eq. intros x. rewrite elem_of_union, elem_of_singleton.
    split; [by right|]. by intros [->|?].
Qed.

(** X27. A request to join a team that is not full which carries no
    [join_code] ends in [AttributeError] ([lower] of [None]) and writes
    nothing. *)
Theorem registration_join_no_code request db curr_hunt (team0 : option Team.t)
    (team : Team.t) :
  objects_filter Hunt.is_current_hunt (hunts db) = [curr_hunt] ->
  team_from_user_hunt db (user request) curr_hunt = inr team0 ->
  method request = "POST" ->
  POST request !! "form_type" = Some "join_team" ->
  objects_filter
    (fun tm => in_team_set curr_hunt tm && exact (POST request !! "team_name") tm)
    (teams db) = [team] ->
  POST request !! "join_code" = None ->
  (Z.of_nat (size (person_set team db)) < Hunt.team_size curr_hunt)%Z ->
  registration team_from_user_hunt rnd request db = (inl AttributeError, db).
Proof.
  intros Hcur Htf Hm Hform Hteam Hcode Hlt.
  destruct (join_team_run request db curr_hunt team Hcur Hteam) as (k & Hk & Hrun).
  rewrite (registration_join_team team_from_user_hunt rnd request db curr_hunt
             team0 Hcur Htf Hm Hform).
  rewrite Hrun, Hcode.
  by destruct (Z.geb_spec (Z.of_nat (size (person_set team db)))
                 (Hunt.team_size curr_hunt)) as [|_]; [lia|].
Qed.

Lemma caseless_eq_refl (s : string) : caseless_eq s s = true.
Proof.
  rewrite <- lower_caseless_eq. unfold str_eqb. by apply bool_decide_eq_true_2.
Qed.

(** X28. The join code made at the creation of a team opens it: in a
    hunt with room for two members per team, once a person has created a
    team, a second person who sends the name of the team as it was given
    and the code, in any letter case, is added to the team, next to the
    creator. *)
Theorem registration_create_then_join
    (create join : Request) db curr_hunt (team1 team2 : option Team.t)
    (name loc code : string) (p q : nat) :
  objects_filter Hunt.is_current_hunt (hunts db) = [curr_hunt] ->
  (1 < Hunt.team_size curr_hunt)%Z ->
  memberships_valid db ->
  team_from_user_hunt db (user create) curr_hunt = inr team1 ->
  method create = "POST" ->
  POST create !! "form_type" = Some "new_team" ->
  POST create !! "team_name" = Some name ->
  (forall k existing,
      teams db !! k = Some existing ->
      Some (Team.hunt existing) = pk curr_hunt ->
      caseless_eq (Team.team_name existing) name = false) ->
  name <> "" ->
  POST create !! "need_room" = Some loc ->
  person (user create) = Some p ->
  team_from_user_hunt (registration team_from_user_hunt rnd create db).2
    (user join) curr_hunt = inr team2 ->
  method join = "POST" ->
  POST join !! "form_type" = Some "join_team" ->
  POST join !! "team_name" = Some name ->
  POST join !! "join_code" = Some code ->
  caseless_eq (random_join_code rnd) code = true ->
  person (user join) = Some q ->
  exists (k : nat) (team : Team.t) (db1 db2 : DB),
    registration team_from_user_hunt rnd create db
    = (inr (RenderRegisteredTeam team), db1)
    /\ registration team_from_user_hunt rnd join db1
       = (inr (RenderRegisteredTeam team), db2)
    /\ pk team = Some k
    /\ person_set team db2 = {[ (p, k); (q, k) ]}.
Proof.
  intros Hcur Hroom Hvalid Htf1 Hm1 Hform1 Hname1 Hnodup Hblank Hloc Hp
    Htf2 Hm2 Hform2 Hname2 Hcode Hmatch Hq.
  pose proof (objects_filter_one_row _ _ _ Hcur) as (_ & h & row & Hrow & Hcurr).
  assert (pk curr_hunt = Some h) as Hpk by (by rewrite Hcurr).
  set (k := next_pk (teams db)).
  set (team := Team.mk (Some k) name h loc (random_join_code rnd) false).
  set (db1 := mkDB (hunts db) (<[k := team]> (teams db))
                   ({[ (p, k) ]} ∪ person_teams db)).
  assert (registration team_from_user_hunt rnd create db
          = (inr (RenderRegisteredTeam team), db1)) as Hrun1.
  { rewrite (registration_new_team team_from_user_hunt rnd create db curr_hunt
               team1 Hcur Htf1 Hm1 Hform1).
    rewrite (new_team_create_run create db curr_hunt team1 name loc h Hname1
               (caseless_none_found _ _ _ Hnodup) Hblank Hloc Hpk).
    by rewrite Hp. }
  rewrite Hrun1 in Htf2. cbn [snd] in Htf2.
  assert (objects_filter Hunt.is_current_hunt (hunts db1) = [curr_hunt]) as Hcur1
    by done.
  assert (objects_filter
            (fun tm => in_team_set curr_hunt tm && exact (POST join !! "team_name") tm)
            (teams db1) = [team]) as Hteam.
  { rewrite Hname2. apply singleton_of_NoDup; [apply NoDup_objects_filter|].
    intros x. rewrite elem_of_objects_filter. split.
    - intros (HP & j & r & Hj & ->). cbn [teams db1] in Hj.
      destruct (decide (j = k)) as [->|Hne].
      + rewrite lookup_insert_eq in Hj. by injection Hj as <-.
      + exfalso. rewrite lookup_insert_ne in Hj by done.
        apply andb_true_iff in HP as [Hin Hex].
        apply bool_decide_eq_true in Hin, Hex. simpl in Hin, Hex.
        pose proof (Hnodup j r Hj Hin) as Hno.
        rewrite Hex, caseless_eq_refl in Hno. discriminate.
    - intros ->. split.
      + apply andb_true_iff. split; apply bool_decide_eq_true_2; simpl; [|done].
        by rewrite <- Hpk.
      + exists k, team. split; [|done]. cbn [teams db1]. by rewrite lookup_insert_eq. }
  assert (person_set team db1 = {[ (p, k) ]}) as Hmembers.
  { unfold person_set. cbn [person_teams db1]. apply set_eq. intros [a j].
    rewrite elem_of_filter, elem_of_union, !elem_of_singleton. simpl. split.
    - intros [[= ->] [?|Hin]]; [done|].
      apply Hvalid in Hin as [r Hr]. pose proof (next_pk_fresh (teams db)) as Hf.
      fold k in Hf. congruence.
    - intros [= -> ->]. split; [done|by left]. }
  destruct (join_team_run join db1 curr_hunt team Hcur1 Hteam) as (k' & Hk' & Hrun).
  assert (k' = k) as -> by (simpl in Hk'; congruence).
  exists k, team, db1, (set_person_teams ({[ (q, k) ]} ∪ person_teams db1) db1).
  split; [done|]. split.
  - rewrite (registration_join_team team_from_user_hunt rnd join db1 curr_hunt
               team2 Hcur1 Htf2 Hm2 Hform2).
    rewrite Hrun, Hcode, Hq, Hmembers, size_singleton.
    change (Team.join_code team) with (random_join_code rnd). rewrite Hmatch.
    by destruct (Z.geb_spec (Z.of_nat 1) (Hunt.team_size curr_hunt)) as [|_];
      [lia|].
  - split; [done|].
    unfold person_set in *. cbn [person_teams set_person_teams db1] in *.
    apply set_eq. intros [a j].
    rewrite elem_of_filter, !elem_of_union, !elem_of_singleton. simpl. split.
    + intros [[= ->] [?|[?|Hin]]]; [by right|by left|].
      apply Hvalid in Hin as [r Hr]. pose proof (next_pk_fresh (teams db)) as Hf.
      fold k in Hf. congruence.
    + intros [[= -> ->]|[= -> ->]]; (split; [done|]); [right; by left|by left].
Qed.
End RegistrationWrites.

(** ** The sample databases *)

Lemma sample_db0_current :
  objects_filter Hunt.is_current_hunt (InfoViews.hunts Sample.db0)
  = [Sample.current].
Proof. vm_compute. reflexivity. Qed.

Lemma sample_db1_current :
  objects_filter Hunt.is_current_hunt (InfoViews.hunts Sample.db1)
  = [Sample.current].
Proof. vm_compute. reflexivity. Qed.

Lemma sample_db2_current :
  objects_filter Hunt.is_current_hunt (InfoViews.hunts Sample.db2)
  = [Sample.current].
Proof. vm_compute. reflexivity. Qed.

Lemma sample_db1_teams : InfoViews.teams Sample.db1 = {[ 1 := Sample.foo ]}.
Proof. vm_compute. reflexivity. Qed.

Lemma sample_db0_no_team (name : string) :
  forall k existing,
    InfoViews.teams Sample.db0 !! k = Some existing ->
    Some (Team.hunt existing) = pk Sample.current ->
    caseless_eq (Team.team_name existing) name = false.
Proof.
  intros k existing Hk. exfalso.
  change (InfoViews.teams Sample.db0) with (∅ : gmap nat Team.t) in Hk.
  rewrite lookup_empty in Hk. discriminate Hk.
Qed.

Lemma sample_db0_valid : memberships_valid Sample.db0.
Proof. intros q j Hin. by apply not_elem_of_empty in Hin. Qed.

Lemma sample_db1_valid : memberships_valid Sample.db1.
Proof.
  intros q j Hin. rewrite sample_db1_teams.
  assert (InfoViews.person_teams Sample.db1 = {[ (1, 1) ]}) as Hpt
    by (vm_compute; reflexivity).
  rewrite Hpt in Hin. apply elem_of_singleton in Hin. injection Hin as -> ->.
  rewrite lookup_singleton_eq. eauto.
Qed.

Lemma registration_keeps_tables_witness :
  InfoViews.names_distinct Sample.db0
  /\ InfoViews.hunts Sample.db1 = InfoViews.hunts Sample.db0
  /\ InfoViews.names_distinct Sample.db1.
Proof.
  assert (InfoViews.names_distinct Sample.db0) as Hdist.
  { intros k1 k2 t1 t2 H1.
    change (InfoViews.teams Sample.db0) with (∅ : gmap nat Team.t) in H1.
    rewrite lookup_empty in H1. discriminate H1. }
  split; [exact Hdist|].
  destruct (registration_keeps_tables Sample.team_from_user_hunt Sample.rnd
              Sample.new_foo Sample.db0) as (Hhunts & _ & Hnames).
  split; [exact Hhunts | exact (Hnames Hdist)].
Defined.

Lemma registration_keeps_memberships_valid_witness :
  memberships_valid Sample.db0 /\ memberships_valid Sample.db1.
Proof.
  split; [exact sample_db0_valid|].
  exact (registration_keeps_memberships_valid Sample.team_from_user_hunt
           Sample.rnd Sample.new_foo Sample.db0 sample_db0_valid).
Defined.

Lemma registration_only_own_memberships_witness :
  InfoViews.person (InfoViews.user (Sample.join_foo Sample.bob "Foo" "9gpw5"))
  <> Some 1
  /\ (1, 1) ∈ InfoViews.person_teams Sample.db2.
Proof.
  assert (InfoViews.person
            (InfoViews.user (Sample.join_foo Sample.bob "Foo" "9gpw5"))
          <> Some 1) as Hother by discriminate.
  split; [exact Hother|].
  apply (registration_only_own_memberships Sample.team_from_user_hunt Sample.rnd
           (Sample.join_foo Sample.bob "Foo" "9gpw5") Sample.db1 1 1 Hother).
  vm_compute. reflexivity.
Defined.

Lemma registration_keeps_capacity_witness :
  within_capacity Sample.current Sample.db0
  /\ within_capacity Sample.current Sample.db1.
Proof.
  assert (within_capacity Sample.current Sample.db0) as Hcap.
  { intros j r Hj.
    change (InfoViews.teams Sample.db0) with (∅ : gmap nat Team.t) in Hj.
    rewrite lookup_empty in Hj. discriminate Hj. }
  split; [exact Hcap|].
  apply (registration_keeps_capacity Sample.team_from_user_hunt Sample.rnd
           Sample.new_foo Sample.db0 Sample.current sample_db0_current);
    [vm_compute; discriminate | exact sample_db0_valid | exact Hcap].
Defined.

Lemma registration_read_only_witness :
  InfoViews.registration Sample.team_from_user_hunt Sample.rnd
    (InfoViews.mkRequest Sample.alice "GET" ∅) Sample.db1
  = (inr (InfoViews.RenderRegisteredTeam Sample.foo), Sample.db1).
Proof.
  apply (registration_read_only Sample.team_from_user_hunt Sample.rnd
           (InfoViews.mkRequest Sample.alice "GET" ∅) Sample.db1
           Sample.current (Some Sample.foo) sample_db1_current);
    [vm_compute; reflexivity|left; discriminate].
Defined.

Lemma registration_blank_name_witness :
  InfoViews.registration Sample.team_from_user_hunt Sample.rnd
    (Sample.post Sample.carol [("form_type", "new_team"); ("team_name", "")])
    Sample.db1
  = (inr (InfoViews.RenderTeams [Sample.foo]), Sample.db1).
Proof.
  apply (registration_blank_name Sample.team_from_user_hunt Sample.rnd
           (Sample.post Sample.carol [("form_type", "new_team"); ("team_name", "")])
           Sample.db1 Sample.current None sample_db1_current);
    [vm_compute; reflexivity..|].
  intros k existing Hk _. rewrite sample_db1_teams in Hk.
  apply lookup_singleton_Some in Hk as [_ <-]. discriminate.
Defined.

Lemma registration_leave_team_witness :
  InfoViews.registration Sample.team_from_user_hunt Sample.rnd
    (Sample.post Sample.bob [("form_type", "leave_team")]) Sample.db2
  = (inr (InfoViews.RenderRegisteredTeam Sample.foo),
     InfoViews.set_person_teams
       (InfoViews.person_teams Sample.db2 ∖ {[ (2, 1) ]}) Sample.db2).
Proof.
  apply (registration_leave_team Sample.team_from_user_hunt Sample.rnd
           (Sample.post Sample.bob [("form_type", "leave_team")]) Sample.db2
           Sample.current Sample.foo 1 2 sample_db2_current);
    vm_compute; reflexivity.
Defined.

Lemma registration_new_team_no_person_witness :
  exists k team,
    InfoViews.registration Sample.team_from_user_hunt Sample.rnd
      (Sample.new_bar Sample.ghost) Sample.db1
    = (inl AttributeError,
       InfoViews.set_teams (<[k := team]> (InfoViews.teams Sample.db1)) Sample.db1)
    /\ Team.team_name team = "Bar".
Proof.
  destruct (registration_new_team_no_person Sample.team_from_user_hunt Sample.rnd
              (Sample.new_bar Sample.ghost) Sample.db1 Sample.current None
              "Bar" "no" sample_db1_current)
    as (k & h & team & _ & Hteam & Hrun & _);
    [vm_compute; reflexivity..| | | | |exact sample_db1_valid|].
  - intros k existing Hk _. rewrite sample_db1_teams in Hk.
    apply lookup_singleton_Some in Hk as [_ <-]. reflexivity.
  - discriminate.
  - vm_compute. reflexivity.
  - reflexivity.
  - exists k, team. split; [exact Hrun|]. rewrite Hteam. reflexivity.
Defined.

Lemma registration_join_again_witness :
  (1, 1) ∈ InfoViews.person_teams Sample.db1
  /\ InfoViews.registration Sample.team_from_user_hunt Sample.rnd
       (Sample.join_foo Sample.alice "Foo" "9gpw5") Sample.db1
     = (inr (InfoViews.RenderRegisteredTeam Sample.foo), Sample.db1).
Proof.
  assert ((1, 1) ∈ InfoViews.person_teams Sample.db1) as Hin
    by (vm_compute; reflexivity).
  split; [exact Hin|].
  apply (registration_join_again Sample.team_from_user_hunt Sample.rnd
           (Sample.join_foo Sample.alice "Foo" "9gpw5") Sample.db1
           Sample.current (Some Sample.foo) Sample.foo "9gpw5" 1 1
           sample_db1_current);
    [vm_compute; reflexivity..|exact Hin|vm_compute; reflexivity].
Defined.

Lemma registration_join_no_code_witness :
  InfoViews.registration Sample.team_from_user_hunt Sample.rnd
    (Sample.post Sample.carol [("form_type", "join_team"); ("team_name", "Foo")])
    Sample.db1
  = (inl AttributeError, Sample.db1).
Proof.
  apply (registration_join_no_code Sample.team_from_user_hunt Sample.rnd
           (Sample.post Sample.carol
              [("form_type", "join_team"); ("team_name", "Foo")])
           Sample.db1 Sample.current None Sample.foo sample_db1_current);
    vm_compute; reflexivity.
Defined.

Lemma registration_create_then_join_witness :
  exists k team db2,
    InfoViews.registration Sample.team_from_user_hunt Sample.rnd
      (Sample.join_foo Sample.bob "Foo" "9gpw5")
      (InfoViews.registration Sample.team_from_user_hunt Sample.rnd
         Sample.new_foo Sample.db0).2
    = (inr (InfoViews.RenderRegisteredTeam team), db2)
    /\ InfoViews.person_set team db2 = {[ (1, k); (2, k) ]}.
Proof.
  destruct (registration_create_then_join Sample.team_from_user_hunt Sample.rnd
              Sample.new_foo (Sample.join_foo Sample.bob "Foo" "9gpw5")
              Sample.db0 Sample.current None None "Foo" "yes" "9gpw5" 1 2
              sample_db0_current)
    as (k & team & db1 & db2 & Hrun1 & Hrun2 & _ & Hmembers);
    try exact sample_db0_valid; try exact (sample_db0_no_team "Foo");
    try discriminate; try (vm_compute; reflexivity).
  exists k, team, db2. rewrite Hrun1. split; [exact Hrun2 | exact Hmembers].
Defined.
